(** * Hypcast HTTP API: RPC framework, API handlers and server shutdown

    A shallow embedding of
    - [internal/api/rpc/rpc.go]   (package [rpc]: the JSON-over-HTTP RPC framework),
    - [internal/api/api.go]       (package [api]: routes and RPC handlers),
    - [cmd/hypcast-server/main.go] (process start-up and shutdown),
    together with the two earlier single-stage revisions of the RPC handler
    and the earlier WebSocket upgrader, which are kept for comparison.

    Conventions.  Go [int]/[int64] values are [Z]; byte strings ([[]byte],
    [string], request bodies) are [string] (a list of 8-bit characters);
    [http.Header] is a finite map from names to lists of values.  A handler
    that mutates its [http.ResponseWriter] and the process state takes both
    and returns both.  Logging through [slog] has no observable effect on
    any response and is left out. *)

From Stdlib Require Import ZArith String Ascii List Bool Lia.
From stdpp Require Import base option list gmap strings.

Import ListNotations.
Set Warnings "-register-all".
Set Default Proof Using "Type".
Local Open Scope string_scope.
Local Open Scope Z_scope.

(** ** Go errors *)

Module Errors.

(** An error value.  [ErrLeaf tag msg] is an error without [Unwrap]
    (what [errors.New] returns); [tag] stands for the identity of the
    value, which for a pointer-typed error is its address: a package-level
    sentinel has the tag of its variable.  [ErrHTTP] is the [rpc.httpError]
    struct, [ErrMaxBytes] is [*http.MaxBytesError], and [ErrWrap msg e] is
    any error whose [Unwrap] method returns [e]. *)
Inductive error : Type :=
| ErrLeaf (tag : string) (msg : string)
| ErrHTTP (HTTPCode : Z) (Message : string)
| ErrMaxBytes (Limit : Z)
| ErrWrap (msg : string) (inner : error).

(** [err.Error()]. *)
Definition Error (e : error) : string :=
  match e with
  | ErrLeaf _ msg => msg
  | ErrHTTP _ msg => msg
  | ErrMaxBytes _ => "http: request body too large"
  | ErrWrap msg _ => msg
  end.

Fixpoint error_eqb (a b : error) : bool :=
  match a, b with
  | ErrLeaf t1 m1, ErrLeaf t2 m2 => String.eqb t1 t2 && String.eqb m1 m2
  | ErrHTTP c1 m1, ErrHTTP c2 m2 => Z.eqb c1 c2 && String.eqb m1 m2
  | ErrMaxBytes l1, ErrMaxBytes l2 => Z.eqb l1 l2
  | ErrWrap m1 e1, ErrWrap m2 e2 => String.eqb m1 m2 && error_eqb e1 e2
  | _, _ => false
  end.

(** [errors.Is(err, target)] for a non-nil [err]: [target] is compared with
    every error of the [Unwrap] chain. *)
Fixpoint Is (err target : error) : bool :=
  error_eqb err target ||
  match err with
  | ErrWrap _ inner => Is inner target
  | _ => false
  end.

(** [errors.As(err, &herr)] with [herr] of type [rpc.httpError]: the first
    [httpError] of the chain, as its code and message. *)
Fixpoint As_httpError (err : error) : option (Z * string) :=
  match err with
  | ErrHTTP c m => Some (c, m)
  | ErrWrap _ inner => As_httpError inner
  | _ => None
  end.

End Errors.
Export Errors.

(** ** JSON values and the [net/http] vocabulary *)

Module Http.

(** What [encoding/json] produces is kept as a value, not as text. *)
Inductive JSON : Type :=
| JNull
| JBool (b : bool)
| JNumber (n : Z)
| JString (s : string)
| JArray (items : list JSON)
| JObject (fields : list (string * JSON)).

(** One write to the response body. [JsonDoc v] is what
    [json.NewEncoder(w).Encode] writes for a value that marshals to [v]
    (the JSON text and a newline); [Text s] is a raw write of [s]. *)
Inductive Chunk : Type :=
| JsonDoc (v : JSON)
| Text (s : string).

Definition StatusOK : Z := 200.
Definition StatusNoContent : Z := 204.
Definition StatusBadRequest : Z := 400.
Definition StatusForbidden : Z := 403.
Definition StatusNotFound : Z := 404.
Definition StatusMethodNotAllowed : Z := 405.
Definition StatusRequestEntityTooLarge : Z := 413.
Definition StatusUnsupportedMediaType : Z := 415.
Definition StatusInternalServerError : Z := 500.

Definition MethodGet : string := "GET".
Definition MethodHead : string := "HEAD".
Definition MethodOptions : string := "OPTIONS".
Definition MethodPost : string := "POST".

(** [http.Header]: [Get] returns the first value of the key, or the empty
    string; [Add] appends a value; [Set] replaces all values. *)
Abbreviation Header := (gmap string (list string)).

Definition Header_Get (h : Header) (key : string) : string :=
  match h !! key with
  | Some (v :: _) => v
  | _ => EmptyString
  end.

Definition Header_Add (h : Header) (key value : string) : Header :=
  <[key := (default [] (h !! key) ++ [value])%list]> h.

Definition Header_Set (h : Header) (key value : string) : Header :=
  <[key := [value]]> h.

(** The body of a request as its handler finds it in [r.Body].
    [Stream data err] is the body supplied by the server or a test: reading
    it to the end yields [data], and the read after the last byte returns
    [io.EOF] ([err = None]) or the read error [err].  [Abrupt data e] is a
    body of which the read that returns the last bytes of [data] returns
    the error [e] together with them, as [io.Reader] allows.
    [bufferedBody buf] is the [*rpc.bufferedBody] sentinel holding an
    already buffered body. *)
Inductive Body : Type :=
| Stream (data : string) (err : option error)
| Abrupt (data : string) (e : error)
| bufferedBody (buf : string).

(** A request.  [Path] is the path of its URL, taken to hold no
    percent-escape, so that [r.URL.Path] and [r.URL.EscapedPath()] are this
    one string. *)
Record Request : Type := mkRequest {
  Method : string;
  Path : string;
  Host : string;
  ReqHeader : Header;
  ReqBody : Body
}.

Definition with_Method (r : Request) (m : string) : Request :=
  mkRequest m (Path r) (Host r) (ReqHeader r) (ReqBody r).

Definition with_Body (r : Request) (b : Body) : Request :=
  mkRequest (Method r) (Path r) (Host r) (ReqHeader r) b.

(** The state of an [http.ResponseWriter] of the server: the header map,
    the final status code once [WriteHeader] has written one, the chunks of
    the body, the informational (1xx) responses sent before the final one,
    and whether a call on the writer has panicked, which ends the handler:
    no later call changes the writer. *)
Record ResponseWriter : Type := mkWriter {
  RespHeader : Header;
  Code : option Z;
  Written : list Chunk;
  Informed : list Z;
  Panicked : bool
}.

(** A response without informational responses, from a handler that ran
    to its end. *)
Definition mkResponse (h : Header) (code : option Z) (written : list Chunk)
  : ResponseWriter :=
  mkWriter h code written [] false.

Definition newResponse : ResponseWriter := mkResponse ∅ None [].

(** [w.Header().Add(key, value)]. *)
Definition AddHeader (key value : string) (w : ResponseWriter) : ResponseWriter :=
  if Panicked w then w else
  mkWriter (Header_Add (RespHeader w) key value) (Code w) (Written w)
    (Informed w) false.

Definition SetHeader (key value : string) (w : ResponseWriter) : ResponseWriter :=
  if Panicked w then w else
  mkWriter (Header_Set (RespHeader w) key value) (Code w) (Written w)
    (Informed w) false.

(** [checkWriteHeaderCode]: a code outside 100..999 makes [WriteHeader]
    panic. *)
Definition validCode (code : Z) : bool := (100 <=? code) && (code <=? 999).

(** A 1xx code other than 101 is sent as an informational response and is
    not the final status. *)
Definition informational (code : Z) : bool :=
  (100 <=? code) && (code <=? 199) && negb (code =? 101).

(** [bodyAllowedForStatus]. *)
Definition bodyAllowedForStatus (status : Z) : bool :=
  negb ((100 <=? status) && (status <=? 199)) &&
  negb (status =? 204) && negb (status =? 304).

(** [w.WriteHeader(code)]: only the first final code counts; a call after
    it is ignored without a look at its code. *)
Definition WriteHeader (code : Z) (w : ResponseWriter) : ResponseWriter :=
  if Panicked w then w else
  match Code w with
  | Some _ => w
  | None =>
      if negb (validCode code)
      then mkWriter (RespHeader w) None (Written w) (Informed w) true
      else if informational code
      then mkWriter (RespHeader w) None (Written w) (Informed w ++ [code])%list false
      else mkWriter (RespHeader w) (Some code) (Written w) (Informed w) false
  end.

(** [w.Write]: a write before [WriteHeader] sends status 200 first; under
    a status that allows no body the write fails with
    [http.ErrBodyNotAllowed] and nothing is sent. *)
Definition Write (c : Chunk) (w : ResponseWriter) : ResponseWriter :=
  if Panicked w then w else
  let w' := WriteHeader StatusOK w in
  match Code w' with
  | Some status =>
      if bodyAllowedForStatus status
      then mkWriter (RespHeader w') (Code w') (Written w' ++ [c])%list
             (Informed w') false
      else w'
  | None => w'
  end.

(** [json.NewEncoder(w).Encode(v)] for a value that marshals to [v]. *)
Definition Encode (v : JSON) (w : ResponseWriter) : ResponseWriter :=
  Write (JsonDoc v) w.

(** The status code the client sees: 200 when the handler never set one. *)
Definition StatusCode (w : ResponseWriter) : Z := default StatusOK (Code w).

(** [http.Error(w, msg, code)]. *)
Definition http_Error (msg : string) (code : Z) (w : ResponseWriter) : ResponseWriter :=
  Write (Text (msg ++ String "010"%char EmptyString))
    (WriteHeader code
       (SetHeader "X-Content-Type-Options" "nosniff"
          (SetHeader "Content-Type" "text/plain; charset=utf-8" w))).

(** [http.NotFound]. *)
Definition NotFound (w : ResponseWriter) : ResponseWriter :=
  http_Error "404 page not found" StatusNotFound w.

(** [rbody.ReadFrom(body)] for a [bytes.Buffer]: everything the reader
    yields, and the error that ended the read, if any. *)
Definition ReadFrom (b : Body) : string * option error :=
  match b with
  | Stream data err => (data, err)
  | Abrupt data e => (data, Some e)
  | bufferedBody buf => (buf, None)
  end.

Definition Len (s : string) : Z := Z.of_nat (String.length s).

(** [http.MaxBytesReader(w, body, limit)] read to the end: a negative
    limit counts as 0; a body of more than [limit] bytes yields its first
    [limit] bytes and a [*http.MaxBytesError], whatever follows and
    whenever an error of the body arrives. *)
Definition MaxBytesReader (body : Body) (limit : Z) : Body :=
  let '(data, err) := ReadFrom body in
  let n := Z.max limit 0 in
  if n <? Len data
  then Stream (substring 0 (Z.to_nat n) data) (Some (ErrMaxBytes n))
  else Stream data err.

(** [io.LimitReader(body, n)] read to the end: at most [n] bytes, and
    [io.EOF] after the [n]-th one without touching the reader again.  An
    error that the body returns together with bytes that are still within
    the [n] is passed on. *)
Definition LimitReader (body : Body) (n : Z) : Body :=
  if n <=? 0 then Stream EmptyString None
  else match body with
       | Abrupt data e =>
           if n <? Len data then Stream (substring 0 (Z.to_nat n) data) None
           else Stream data (Some e)
       | _ =>
           let '(data, err) := ReadFrom body in
           if n <=? Len data then Stream (substring 0 (Z.to_nat n) data) None
           else Stream data err
       end.

(** The elements of a path: the texts between its slashes. *)
Fixpoint elements (p : string) : list string :=
  match p with
  | EmptyString => [EmptyString]
  | String c rest =>
      if Ascii.eqb c "/"%char then EmptyString :: elements rest
      else match elements rest with
           | e :: es => String c e :: es
           | [] => [String c EmptyString]
           end
  end.

(** [path.Clean] of a rooted path: empty elements and [.] go, [..] takes
    the element before it along, or goes alone at the root. *)
Definition path_Clean (p : string) : string :=
  let keep :=
    fold_left
      (fun stack e =>
         if String.eqb e EmptyString || String.eqb e "." then stack
         else if String.eqb e ".." then List.tl stack
         else e :: stack)
      (elements p) [] in
  match keep with
  | [] => "/"
  | _ => fold_left (fun acc e => acc ++ "/" ++ e) (rev keep) EmptyString
  end.

(** [cleanPath] of net/http: the canonical path, with the trailing slash
    of [p] kept. *)
Definition cleanPath (p : string) : string :=
  match p with
  | EmptyString => "/"
  | String c _ =>
      let p := if Ascii.eqb c "/"%char then p else "/" ++ p in
      let np := path_Clean p in
      if String.eqb (List.last (elements p) "-") EmptyString && negb (String.eqb np "/")
      then np ++ "/"
      else np
  end.

(** [int64] addition. *)
Definition int64_wrap (z : Z) : Z := (z + 2^63) mod 2^64 - 2^63.
Definition int64_add (a b : Z) : Z := int64_wrap (a + b).
Definition MaxInt64 : Z := 2^63 - 1.

End Http.
Export Http.

(** The request body once a reader has been read to its end. *)
Definition drain (b : Body) : Body :=
  match b with
  | Stream _ err => Stream EmptyString err
  | Abrupt _ e => Stream EmptyString (Some e)
  | bufferedBody _ => bufferedBody EmptyString
  end.

(** ** Package [rpc] (internal/api/rpc/rpc.go) *)

Module Rpc.

(** The [any] a handler returns as response body: untyped [nil], an
    [error], another value that [encoding/json] can marshal, kept as the
    JSON it marshals to, or a value that it cannot marshal. *)
Inductive any : Type :=
| nil
| anError (e : error)
| aValue (v : JSON)
| unmarshalable.

Definition errReadingBody : error :=
  ErrHTTP StatusInternalServerError "unable to read RPC body".
Definition errBodyTooLarge : error :=
  ErrHTTP StatusRequestEntityTooLarge "RPC body exceeded maximum size".
Definition errInvalidBodyType : error :=
  ErrHTTP StatusUnsupportedMediaType "must have Content-Type: application/json".
Definition errInvalidBody : error :=
  ErrHTTP StatusBadRequest "unable to decode RPC body".

Definition errorHTTPCode (err : error) : Z :=
  match As_httpError err with
  | Some (code, _) => code
  | None => StatusInternalServerError
  end.

(** [struct{ Error string }{berr.Error()}] as JSON. *)
Definition errorBody (berr : error) : JSON :=
  JObject [("Error", JString (Error berr))].

Definition respondIfBadMethod (w : ResponseWriter) (r : Request)
  : ResponseWriter * bool :=
  if negb (String.eqb (Method r) MethodPost)
  then (WriteHeader StatusMethodNotAllowed (AddHeader "Allow" MethodPost w), true)
  else (w, false).

(** [Encode] of a value that cannot be marshalled returns an error, which
    [respond] drops, and writes nothing. *)
Definition respond (w : ResponseWriter) (code : Z) (body : any) : ResponseWriter :=
  let body :=
    match body with
    | anError berr => aValue (errorBody berr)
    | _ => body
    end in
  match body with
  | nil => WriteHeader code w
  | aValue v =>
      Encode v (WriteHeader code (AddHeader "Content-Type" "application/json" w))
  | _ => WriteHeader code (AddHeader "Content-Type" "application/json" w)
  end.

Definition respondError (w : ResponseWriter) (err : error) : ResponseWriter :=
  respond w (errorHTTPCode err) (anError err).

(** [r.Header.Get("Content-Type") != "application/json"]. *)
Definition badContentType (r : Request) : bool :=
  negb (String.eqb (Header_Get (ReqHeader r) "Content-Type") "application/json").

Section Framework.

(** [T] is the parameter type of the handler, [zero] its zero value
    ([var params T]) and [unmarshal] is [json.Unmarshal] into a [T]:
    [None] when it returns an error.  [S] is the state of the process that
    handler functions read and change. *)
Context {T S : Type}.
Variable zero : T.
Variable unmarshal : string -> option T.

Definition HandlerFunc : Type := Request -> T -> S -> (Z * any) * S.

(** [http.Handler], by its [ServeHTTP] method. *)
Definition Handler : Type := ResponseWriter -> Request -> S -> ResponseWriter * S.

(** [code, body := h.Handle(r, params); respond(w, code, body)]. *)
Definition invoke (h : HandlerFunc) (w : ResponseWriter) (r : Request)
    (params : T) (s : S) : ResponseWriter * S :=
  let '((code, body), s') := h r params s in
  (respond w code body, s').

(** [Handler[T].ServeHTTP] of rpc.go. *)
Definition ServeHTTP (h : HandlerFunc) : Handler := fun w r s =>
  let '(w, blocked) := respondIfBadMethod w r in
  if blocked then (w, s) else
  let '(rbody, err, r) :=
    match ReqBody r with
    | bufferedBody b => (b, None, r)
    | body =>
        let '(data, err) := ReadFrom body in
        (data,
         match err with Some _ => Some errReadingBody | None => None end,
         with_Body r (drain body))
    end in
  let '(params, err) :=
    if 0 <? Len rbody then
      if badContentType r then (zero, Some errInvalidBodyType)
      else match unmarshal rbody with
           | Some params => (params, None)
           | None => (zero, Some errInvalidBody)
           end
    else (zero, err) in
  match err with
  | Some err => (respondError w err, s)
  | None => invoke h w r params s
  end.

(** [WithLimitedBodyBuffer] of rpc.go.  ([http.MaxBytesReader] also asks
    the server to close the connection after an oversized body, and
    [r.Body.Close()] releases the body that has been read; no status code
    or response body depends on either.) *)
Definition WithLimitedBodyBuffer (limit : Z) (handle : Handler) : Handler :=
  fun w r s =>
  let '(w, blocked) := respondIfBadMethod w r in
  if blocked then (w, s) else
  let '(rbody, err) := ReadFrom (MaxBytesReader (ReqBody r) limit) in
  match err with
  | Some (ErrMaxBytes _) => (respondError w errBodyTooLarge, s)
  | Some _ => (respondError w errReadingBody, s)
  | None => handle w (with_Body r (bufferedBody rbody)) s
  end.

(** [Handle], the function that replaced [Handler[T]] in the revision of
    the package that api.go and rpc_test.go call. *)
Definition Handle (h : HandlerFunc) : Handler := fun w r s =>
  let '(w, blocked) := respondIfBadMethod w r in
  if blocked then (w, s) else
  let decode (rbody : string) (r : Request) :=
    if 0 <? Len rbody then
      if badContentType r then (respondError w errInvalidBodyType, s)
      else match unmarshal rbody with
           | None => (respondError w errInvalidBody, s)
           | Some params => invoke h w r params s
           end
    else invoke h w r zero s in
  match ReqBody r with
  | bufferedBody b => decode b r
  | body =>
      match ReadFrom body with
      | (_, Some _) => (respondError w errReadingBody, s)
      | (data, None) => decode data (with_Body r (drain body))
      end
  end.

(** A handler function that also records the parameters of every call. *)
Definition spy (h : HandlerFunc)
  : Request -> T -> S * list T -> (Z * any) * (S * list T) :=
  fun r params '(s, calls) =>
    let '(res, s') := h r params s in (res, (s', (calls ++ [params])%list)).

(** A handler that also counts how often it is served. *)
Definition counted (handle : Handler) : ResponseWriter -> Request -> S * nat ->
    ResponseWriter * (S * nat) :=
  fun w r '(s, n) =>
    let '(w', s') := handle w r s in (w', (s', Datatypes.S n)).

End Framework.

End Rpc.

(** ** Earlier single-stage revisions of the RPC handler *)

(** The revision whose [ServeHTTP] reads the body through
    [io.LimitReader] in [readRPCParams]. *)
Module RpcLimitReader.
Import Rpc.

Definition DefaultMaxRequestBodySize : Z := 1024.

Section Framework.
Context {T S : Type}.
Variable zero : T.
Variable unmarshal : string -> option T.

(** Besides the parameters and the error, the request as the read leaves
    it: untouched when the limited reader has no room, read to the end in
    every other case that returns no error. *)
Definition readRPCParams (r : Request) (sizeLimit : Z)
  : T * option error * Request :=
  let limit := int64_add sizeLimit 1 in
  let '(body, err) := ReadFrom (LimitReader (ReqBody r) limit) in
  let n := Len body in
  let r' := if limit <=? 0 then r else with_Body r (drain (ReqBody r)) in
  match err with
  | Some _ => (zero, Some errReadingBody, r')
  | None =>
      if n =? 0 then (zero, None, r')
      else if sizeLimit <? n then (zero, Some errBodyTooLarge, r')
      else if badContentType r then (zero, Some errInvalidBodyType, r')
      else match unmarshal body with
           | None => (zero, Some errInvalidBody, r')
           | Some params => (params, None, r')
           end
  end.

Definition ServeHTTP (Handle : HandlerFunc (T:=T) (S:=S))
    (MaxRequestBodySize : Z) : Handler (S:=S) := fun w r s =>
  if negb (String.eqb (Method r) MethodPost)
  then (WriteHeader StatusMethodNotAllowed (AddHeader "Allow" MethodPost w), s)
  else
    let '(params, err, r') := readRPCParams r MaxRequestBodySize in
    let '((code, body), s') :=
      match err with
      | None => Handle r' params s
      | Some err => ((errorHTTPCode err, anError err), s)
      end in
    let body :=
      match body with
      | anError berr => aValue (errorBody berr)
      | _ => body
      end in
    match body with
    | nil => (WriteHeader code w, s')
    | aValue v =>
        (Encode v (WriteHeader code (AddHeader "Content-Type" "application/json" w)),
         s')
    | _ =>
        (WriteHeader code (AddHeader "Content-Type" "application/json" w), s')
    end.

End Framework.
End RpcLimitReader.

(** The revision whose [ServeHTTP] reads the body through
    [http.MaxBytesReader] itself. *)
Module RpcMaxBytes.
Import Rpc.

Definition DefaultMaxRequestBodySize : Z := 1024.

Section Framework.
Context {T S : Type}.
Variable zero : T.
Variable unmarshal : string -> option T.

Definition ServeHTTP (Handle : HandlerFunc (T:=T) (S:=S))
    (MaxRequestBodySize : Z) : Handler (S:=S) := fun w r s =>
  let '(w, blocked) := respondIfBadMethod w r in
  if blocked then (w, s) else
  let '(rbody, err) := ReadFrom (MaxBytesReader (ReqBody r) MaxRequestBodySize) in
  let n := Len rbody in
  let '(params, err) :=
    if 0 <? n then
      match err with
      | Some (ErrMaxBytes _) => (zero, Some errBodyTooLarge)
      | Some _ => (zero, Some errReadingBody)
      | None =>
          if badContentType r then (zero, Some errInvalidBodyType)
          else match unmarshal rbody with
               | None => (zero, Some errInvalidBody)
               | Some params => (params, None)
               end
      end
    else (zero, err) in
  match err with
  | Some err => (respondError w err, s)
  | None => invoke Handle w (with_Body r (drain (ReqBody r))) params s
  end.

End Framework.
End RpcMaxBytes.

(** ** [http.CrossOriginProtection] and [http.ServeMux] *)

Module Csrf.

Definition errCrossOriginRequest : error :=
  ErrLeaf "http.errCrossOriginRequest"
    "cross-origin request detected from Sec-Fetch-Site header".

Definition errCrossOriginRequestFromOldBrowser : error :=
  ErrLeaf "http.errCrossOriginRequestFromOldBrowser"
    "cross-origin request detected, and/or browser is out of date: Sec-Fetch-Site is missing, and Origin does not match Host".

Definition safeMethod (m : string) : bool :=
  String.eqb m MethodGet || String.eqb m MethodHead || String.eqb m MethodOptions.

(** [CrossOriginProtection.Check] of net/http (Go 1.25) for the protection
    that [http.NewCrossOriginProtection()] returns (no trusted origin, no
    bypass pattern), as the library documents it.  [url_Host origin] is the
    [Host] of [url.Parse(origin)], [None] when parsing fails. *)
Definition Check (url_Host : string -> option string) (req : Request)
  : option error :=
  if safeMethod (Method req) then None else
  let site := Header_Get (ReqHeader req) "Sec-Fetch-Site" in
  if String.eqb site EmptyString then
    let origin := Header_Get (ReqHeader req) "Origin" in
    if String.eqb origin EmptyString then None
    else match url_Host origin with
         | Some host =>
             if String.eqb host (Host req) then None
             else Some errCrossOriginRequestFromOldBrowser
         | None => Some errCrossOriginRequestFromOldBrowser
         end
  else if String.eqb site "same-origin" || String.eqb site "none" then None
  else Some errCrossOriginRequest.

(** [CrossOriginProtection.Handler] of net/http without a deny handler, for a
    protection whose [Check] is [check]. *)
Definition Handler {S : Type} (check : Request -> option error)
    (h : Rpc.Handler (S:=S)) : Rpc.Handler (S:=S) := fun w r s =>
  match check r with
  | Some err => (http_Error (Error err) StatusForbidden w, s)
  | None => h w r s
  end.

End Csrf.

(** ** Package [tuner] as package [api] uses it *)

Module Tuner.

(** The operations of [*tuner.Tuner] that package [api] calls, and the
    sentinel [tuner.ErrChannelNotFound].  [ChannelNames] is the sequence
    the iterator yields. *)
Class Ops (Tn : Type) : Type := {
  ErrChannelNotFound : error;
  ChannelNames : Tn -> list string;
  Tune : Tn -> string -> option error * Tn;
  Stop : Tn -> option error * Tn
}.

(** Modelled from the spec: package [internal/atsc/tuner] is not among the
    sources.  A channel record (spec section 3). *)
Record Channel : Type := mkChannel {
  name : string;
  frequency_hz : Z;
  modulation : string;
  program_id : Z
}.

(** Modelled from the spec: the tagged union [TunerState] (section 3),
    missing with package [tuner]. *)
Inductive TunerState : Type :=
| Stopped
| Tuning (channel_name : string)
| Playing (channel_name : string)
| Failed (channel_name message : string).

(** Modelled from the spec: the tuner of section 4.4, missing with package
    [tuner].  [catalog] is the channel catalog in insertion order,
    [construct] the outcome of building a pipeline for a channel ([Some
    cause] on failure) and [published] the status snapshots sent so far. *)
Record Model : Type := mkModel {
  catalog : list Channel;
  construct : Channel -> option string;
  state : TunerState;
  published : list TunerState
}.

Definition publish (st : TunerState) (t : Model) : Model :=
  mkModel (catalog t) (construct t) st (published t ++ [st])%list.

(** Modelled from the spec: [lookup] of section 4.1. *)
Definition lookup (n : string) (t : Model) : option Channel :=
  List.find (fun c => String.eqb (name c) n) (catalog t).

(** Modelled from the spec: [names()] of section 4.1, insertion order. *)
Definition Model_ChannelNames (t : Model) : list string :=
  List.map name (catalog t).

(** Modelled from the spec: the transition algorithm of section 4.4; only
    an unknown channel is reported to the caller. *)
Definition Model_Tune (t : Model) (n : string) : option error * Model :=
  match lookup n t with
  | None => (Some (ErrLeaf "tuner.ErrChannelNotFound" "channel not found"), t)
  | Some ch =>
      let t := publish (Tuning n) t in
      match construct t ch with
      | None => (None, publish (Playing n) t)
      | Some cause => (None, publish (Failed n cause) t)
      end
  end.

(** Modelled from the spec: [Stop()] of section 4.4. *)
Definition Model_Stop (t : Model) : option error * Model :=
  (None, publish Stopped t).

#[global] Instance Model_Ops : Ops Model := {|
  ErrChannelNotFound := ErrLeaf "tuner.ErrChannelNotFound" "channel not found";
  ChannelNames := Model_ChannelNames;
  Tune := Model_Tune;
  Stop := Model_Stop
|}.

End Tuner.

(** ** Package [api] (internal/api/api.go) *)

Module Api.
Import Rpc.

(** A call that package [api] made on the tuner. *)
Inductive Call : Type :=
| CallTune (channel : string)
| CallStop.

(** The state handlers work on: the tuner, and the record of the calls
    made on it so far. *)
Record World (Tn : Type) : Type := mkWorld {
  tuner : Tn;
  calls : list Call
}.
Arguments mkWorld {Tn} _ _.
Arguments tuner {Tn} _.
Arguments calls {Tn} _.

(** Parameters of [rpcTune]: [struct{ ChannelName string }]. *)
Record TuneParams : Type := mkTuneParams { ChannelName : string }.

Definition zeroTuneParams : TuneParams := mkTuneParams EmptyString.

(** [slices.Collect]: the result is the nil slice ([None]) when the
    sequence yields nothing. *)
Definition slices_Collect {A : Type} (seq : list A) : option (list A) :=
  match seq with
  | [] => None
  | _ => Some seq
  end.

(** [json.Marshal] of a [[]string]: a nil slice encodes as [null]. *)
Definition marshal_strings (s : option (list string)) : JSON :=
  match s with
  | None => JNull
  | Some l => JArray (List.map JString l)
  end.

(** [strings.HasPrefix]. *)
Fixpoint HasPrefix (s p : string) : bool :=
  match p, s with
  | EmptyString, _ => true
  | String a p', String b s' => Ascii.eqb a b && HasPrefix s' p'
  | String _ _, EmptyString => false
  end.

Section Handlers.

Context {Tn : Type} `{Tuner.Ops Tn}.

(** [csrf.Check], for the package-level [csrf] protection. *)
Variable csrf_Check : Request -> option error.

(** [json.Unmarshal] into [struct{}] and into [struct{ ChannelName string }]. *)
Variable unmarshalStop : string -> option unit.
Variable unmarshalTune : string -> option TuneParams.

(** The two socket handlers are defined in files that are not among the
    sources. *)
Variable handleSocketWebRTCPeer : Handler (S := World Tn).
Variable handleSocketTunerStatus : Handler (S := World Tn).

(** [http.RedirectHandler(url, http.StatusMovedPermanently)], with which
    [http.ServeMux] answers a request whose path it rewrites. *)
Variable redirect : string -> ResponseWriter -> Request -> ResponseWriter.

Definition tuner_Stop (s : World Tn) : option error * World Tn :=
  let '(err, t) := Tuner.Stop (tuner s) in
  (err, mkWorld t (calls s ++ [CallStop])%list).

Definition tuner_Tune (channel : string) (s : World Tn) : option error * World Tn :=
  let '(err, t) := Tuner.Tune (tuner s) channel in
  (err, mkWorld t (calls s ++ [CallTune channel])%list).

(** [CheckOrigin] of [websocketUpgrader]. *)
Definition websocketUpgrader_CheckOrigin (r : Request) : bool :=
  let r := with_Method r MethodPost in
  match csrf_Check r with
  | None => true
  | Some _ => false
  end.

Definition handleConfigChannels : Handler (S := World Tn) := fun w r s =>
  let w := AddHeader "Content-Type" "application/json" w in
  (Encode (marshal_strings (slices_Collect (Tuner.ChannelNames (tuner s)))) w, s).

Definition rpcStop : HandlerFunc (T := unit) (S := World Tn) := fun r _ s =>
  match tuner_Stop s with
  | (Some err, s) => ((StatusInternalServerError, anError err), s)
  | (None, s) => ((StatusNoContent, nil), s)
  end.

Definition rpcTune : HandlerFunc (T := TuneParams) (S := World Tn) :=
  fun r params s =>
  if String.eqb (ChannelName params) EmptyString
  then ((StatusBadRequest,
         anError (ErrLeaf "api.rpcTune" "channel name required")), s)
  else
    match tuner_Tune (ChannelName params) s with
    | (Some err, s) =>
        if Is err Tuner.ErrChannelNotFound
        then ((StatusBadRequest, anError err), s)
        else ((StatusInternalServerError, anError err), s)
    | (None, s) => ((StatusNoContent, nil), s)
    end.

(** [rpcMux] of [NewHandler]: the two RPC routes, 404 for any other path. *)
Definition rpcMux : Handler (S := World Tn) := fun w r s =>
  if String.eqb (Path r) "/api/rpc/stop"
  then Handle tt unmarshalStop rpcStop w r s
  else if String.eqb (Path r) "/api/rpc/tune"
  then Handle zeroTuneParams unmarshalTune rpcTune w r s
  else (NotFound w, s).

(** The handler registered for the pattern ["/api/rpc/"]. *)
Definition rpcRoutes : Handler (S := World Tn) :=
  Csrf.Handler csrf_Check (WithLimitedBodyBuffer 1024 rpcMux).

(** The routes that [NewHandler] registers on [h.mux], for a request that
    the mux does not redirect. *)
Definition routes : Handler (S := World Tn) := fun w r s =>
  if String.eqb (Path r) "/api/config/channels" then
    if String.eqb (Method r) MethodGet || String.eqb (Method r) MethodHead
    then handleConfigChannels w r s
    else (http_Error "Method Not Allowed" StatusMethodNotAllowed
            (SetHeader "Allow" "GET, HEAD" w), s)
  else if HasPrefix (Path r) "/api/rpc/" then rpcRoutes w r s
  else if String.eqb (Path r) "/api/socket/webrtc-peer"
  then handleSocketWebRTCPeer w r s
  else if String.eqb (Path r) "/api/socket/tuner-status"
  then handleSocketTunerStatus w r s
  else (NotFound w, s).

(** [Handler.ServeHTTP]: [h.mux.ServeHTTP].  The mux answers the request
    target [*], whose path is [*], with 400 and closes the connection
    (requests are taken to be of HTTP/1.1 or later); it cleans the path of
    every request but a CONNECT; it redirects the root of the one subtree
    pattern to the pattern, and every other path that cleaning changes to
    the clean path, before any handler runs. *)
Definition ServeHTTP : Handler (S := World Tn) := fun w r s =>
  if String.eqb (Path r) "*"
  then (WriteHeader StatusBadRequest (SetHeader "Connection" "close" w), s)
  else
  let path :=
    if String.eqb (Method r) "CONNECT" then Path r else cleanPath (Path r) in
  if String.eqb path "/api/rpc" then (redirect "/api/rpc/" w r, s)
  else if negb (String.eqb path (Path r)) then (redirect path w r, s)
  else routes w r s.

End Handlers.

(** [CheckOrigin] of the [websocketUpgrader] of the earlier revision of
    api.go. *)
Definition legacy_CheckOrigin (_ : Request) : bool := true.

End Api.

(** ** The WebSocket upgrade and the two socket handlers *)

Module Websocket.

Definition StatusSwitchingProtocols : Z := 101.

Section Upgrader.

(** What [Upgrader.Upgrade] of gorilla/websocket checks on the request
    apart from its origin: [handshakeError r] is the status (400 or 405)
    of the first failing check among those made before the origin check
    (the Connection and Upgrade tokens, the method GET, the version 13),
    and [validChallengeKey r] the check of Sec-WebSocket-Key made after
    it.  [StatusText] is [http.StatusText]. *)
Variable handshakeError : Request -> option Z.
Variable validChallengeKey : Request -> bool.
Variable StatusText : Z -> string.

(** [Upgrader.returnError] without an [Error] function. *)
Definition returnError (status : Z) (w : ResponseWriter) : ResponseWriter :=
  http_Error (StatusText status) status (SetHeader "Sec-Websocket-Version" "13" w).

(** [Upgrader.Upgrade] for an upgrader whose only field is [CheckOrigin],
    called without response headers: the writer as the call leaves it, and
    whether a connection was returned.  On success the connection is taken
    over and the handshake response with status 101 is written on it; its
    headers are left out. *)
Definition Upgrade (CheckOrigin : Request -> bool) (w : ResponseWriter)
    (r : Request) : ResponseWriter * bool :=
  match handshakeError r with
  | Some status => (returnError status w, false)
  | None =>
      if negb (CheckOrigin r) then (returnError StatusForbidden w, false)
      else if negb (validChallengeKey r)
      then (returnError StatusBadRequest w, false)
      else (mkWriter (RespHeader w) (Some StatusSwitchingProtocols) (Written w)
              (Informed w) (Panicked w), true)
  end.

(** A WebSocket upgrade request: one that passes every check of the
    handshake but, possibly, that of its origin. *)
Definition upgradeRequest (r : Request) : Prop :=
  handshakeError r = None /\ validChallengeKey r = true.

End Upgrader.
End Websocket.

Module Sockets.
Import Rpc.

Section Handlers.
Context {S : Type}.
Variable csrf_Check : Request -> option error.
Variable handshakeError : Request -> option Z.
Variable validChallengeKey : Request -> bool.
Variable StatusText : Z -> string.

(** Modelled from the spec: the handlers of /api/socket/tuner-status and
    /api/socket/webrtc-peer are defined in files that are not among the
    sources.  Each opens the message channel of sections 4.5 and 4.6 by
    upgrading the request with the package's [websocketUpgrader]
    (section 6: the upgrade is gated by the same-origin check); a request
    that is not upgraded gets the upgrader's answer and nothing else
    happens.  [session] is what the handler does on the open channel. *)
Definition handleSocket (session : Request -> S -> S) : Handler (S := S) :=
  fun w r s =>
  match Websocket.Upgrade handshakeError validChallengeKey StatusText
          (Api.websocketUpgrader_CheckOrigin csrf_Check) w r with
  | (w', true) => (w', session r s)
  | (w', false) => (w', s)
  end.

End Handlers.
End Sockets.

(** ** Command [hypcast-server] (cmd/hypcast-server/main.go) *)

Module Main.

(** The signals that [signal.Notify] relays to [signalCh]. *)
Inductive Signal : Type :=
| Interrupt
| SIGTERM.

(** What ends the [select] of [main]. *)
Inductive Wakeup : Type :=
| ServerFailed (err : error)
| Signalled (sig : Signal).

(** What [main] does, as seen from outside, in order. *)
Inductive Effect : Type :=
| LogError (msg : string)
| LogInfo (msg : string)
| NewTuner (pipeline : string)
| HttpHandle (pattern : string)
| ListenAndServe (addr : string)
| Notify (sigs : list Signal)
| Shutdown (timeout : Z)
| Cancel
| TunerStop
| Usage.

Record Flags : Type := mkFlags {
  flagAddr : string;
  flagChannels : string;
  flagAssets : string;
  flagVideoPipeline : string
}.

Definition time_Second : Z := 1000000000.

(** [main] from the return of [flag.Parse()] on, given the flags, the
    outcome of [readChannelsConf], whether the embedded client build is
    present, and what ends the [select].  The result is the effects in
    order and the exit code of the process: 1 through [os.Exit(1)], 0 when
    [main] returns. *)
Definition main (flags : Flags) (channels : option error) (embedded : bool)
    (wake : Wakeup) : list Effect * Z :=
  match channels with
  | Some err => ([LogError "Failed to load channels"], 1)
  | None =>
      let startup :=
        [NewTuner (flagVideoPipeline flags); HttpHandle "/api/"] ++
        (if negb (String.eqb (flagAssets flags) EmptyString) then [HttpHandle "/"]
         else if embedded then [HttpHandle "/"] else []) ++
        [LogInfo "Starting Hypcast server";
         ListenAndServe (flagAddr flags);
         Notify [Interrupt; SIGTERM]] in
      match wake with
      | ServerFailed err =>
          (startup ++ [LogError "Failed to run Hypcast server"], 1)
      | Signalled _ =>
          (startup ++
           [LogInfo "Shutting down"; Shutdown (5 * time_Second); Cancel], 0)
      end
  end%list.

(** What [flag.Parse()] makes of the command line: a flag that is not
    defined or a value that does not parse, a request for help ([-h],
    [-help]), or the values of the four flags. *)
Inductive Parse : Type :=
| BadFlag
| HelpFlag
| Parsed (flags : Flags).

(** The whole of [main].  [flag.Parse()] works on [flag.CommandLine],
    which exits on error: it prints the usage and ends the process with 2
    for a bad flag and 0 for a request for help. *)
Definition process (parse : Parse) (channels : option error) (embedded : bool)
    (wake : Wakeup) : list Effect * Z :=
  match parse with
  | BadFlag => ([Usage], 2)
  | HelpFlag => ([Usage], 0)
  | Parsed flags => main flags channels embedded wake
  end.

End Main.

(** ** Stand-ins used to run the model on concrete requests *)

Module Samples.
Import Rpc Api.

(** The double quote character, and a string between double quotes. *)
Definition dq : string := String "034"%char EmptyString.
Definition quoted (s : string) : string := dq ++ s ++ dq.

Fixpoint strip_prefix (p s : string) : option string :=
  match p, s with
  | EmptyString, _ => Some s
  | String a p', String b s' =>
      if Ascii.eqb a b then strip_prefix p' s' else None
  | String _ _, EmptyString => None
  end.

(** The characters up to the next double quote, and what follows it; no
    escape sequences. *)
Fixpoint until_quote (s : string) : option (string * string) :=
  match s with
  | EmptyString => None
  | String c rest =>
      if Ascii.eqb c "034"%char then Some (EmptyString, rest)
      else if Ascii.eqb c "092"%char then None
      else match until_quote rest with
           | Some (word, rest') => Some (String c word, rest')
           | None => None
           end
  end.

(** A decoder for the two request shapes used below, the empty object and
    an object with the one field [ChannelName]; [json.Unmarshal] accepts
    these with the same result. *)
Definition unmarshalTune (body : string) : option TuneParams :=
  if String.eqb body "{}" then Some zeroTuneParams
  else match strip_prefix ("{" ++ quoted "ChannelName" ++ ":" ++ dq) body with
       | Some rest =>
           match until_quote rest with
           | Some (channel, "}") => Some (mkTuneParams channel)
           | _ => None
           end
       | None => None
       end.

Definition unmarshalStop (body : string) : option unit :=
  if String.eqb body "{}" then Some tt else None.

(** The host of an origin of the form [scheme://host]. *)
Definition url_Host (origin : string) : option string :=
  match strip_prefix "https://" origin with
  | Some host => Some host
  | None => strip_prefix "http://" origin
  end.

Definition csrf_Check : Request -> option error := Csrf.Check url_Host.

(** A socket handler that leaves the response alone. *)
Definition noSocket {S : Type} : Handler (S := S) := fun w _ s => (w, s).

Definition channel (n : string) : Tuner.Channel :=
  Tuner.mkChannel n 503000000 "8VSB" 3.

(** A stopped tuner with catalog [names], whose pipelines always start. *)
Definition tunerWith (names : list string) : World Tuner.Model :=
  mkWorld (Tuner.mkModel (List.map channel names) (fun _ => None) Tuner.Stopped []) [].

(** A redirect as [http.Redirect] writes it for a request that is
    neither GET nor HEAD: the Location header and the status, no body. *)
Definition redirect (url : string) (w : ResponseWriter) (_ : Request)
  : ResponseWriter :=
  WriteHeader 301 (SetHeader "Location" url w).

(** The API handler over these stand-ins. *)
Definition api : Handler (S := World Tuner.Model) :=
  Api.ServeHTTP csrf_Check unmarshalStop unmarshalTune noSocket noSocket redirect.

Definition jsonHeaders : Header := {[ "Content-Type" := ["application/json"] ]}.

Definition post (path : string) (headers : Header) (body : string) : Request :=
  mkRequest MethodPost path "tv.example" headers (Stream body None).

Definition get (path : string) (headers : Header) : Request :=
  mkRequest MethodGet path "tv.example" headers (Stream EmptyString None).

(** [n] copies of the character [c]. *)
Fixpoint filler (n : nat) (c : ascii) : string :=
  match n with
  | O => EmptyString
  | Datatypes.S n' => String c (filler n' c)
  end.

(** A handler function that accepts every call, and one that answers with
    200 plus the number of bytes it still finds in [r.Body]. *)
Definition accept {T : Type} : HandlerFunc (T:=T) (S:=unit) :=
  fun _ _ s => ((StatusNoContent, nil), s).

Definition bodyLength {T : Type} : HandlerFunc (T:=T) (S:=unit) :=
  fun r _ s =>
    ((200 + Len (fst (ReadFrom (ReqBody r))), nil), s).

Definition tuneBody (channel : string) : string :=
  "{" ++ quoted "ChannelName" ++ ":" ++ quoted channel ++ "}".

(** Stand-ins for the checks of the WebSocket handshake.  They agree with
    the library on the requests used below, whose Connection, Upgrade and
    Sec-WebSocket-Version headers hold exactly [Upgrade], [websocket] and
    [13] and whose key is the sample key of RFC 6455; the library compares
    tokens without regard to case and accepts every key that decodes to 16
    bytes. *)
Definition handshakeError (r : Request) : option Z :=
  if negb (String.eqb (Header_Get (ReqHeader r) "Connection") "Upgrade")
  then Some StatusBadRequest
  else if negb (String.eqb (Header_Get (ReqHeader r) "Upgrade") "websocket")
  then Some StatusBadRequest
  else if negb (String.eqb (Method r) MethodGet)
  then Some StatusMethodNotAllowed
  else if negb (String.eqb (Header_Get (ReqHeader r) "Sec-Websocket-Version") "13")
  then Some StatusBadRequest
  else None.

Definition validChallengeKey (r : Request) : bool :=
  String.eqb (Header_Get (ReqHeader r) "Sec-Websocket-Key")
    "dGhlIHNhbXBsZSBub25jZQ==".

(** [http.StatusText] on the codes that the upgrader answers with. *)
Definition StatusText (code : Z) : string :=
  if code =? 400 then "Bad Request"
  else if code =? 403 then "Forbidden"
  else if code =? 405 then "Method Not Allowed"
  else EmptyString.

(** The headers of a WebSocket upgrade request that a browser sends with
    [Sec-Fetch-Site: site]. *)
Definition upgradeHeaders (site : string) : Header :=
  <[ "Sec-Fetch-Site" := [site] ]>
  (<[ "Sec-Websocket-Key" := ["dGhlIHNhbXBsZSBub25jZQ=="] ]>
  (<[ "Sec-Websocket-Version" := ["13"] ]>
  (<[ "Upgrade" := ["websocket"] ]>
  {[ "Connection" := ["Upgrade"] ]}))).

(** A session on an open socket that makes no call on the tuner. *)
Definition session : Request -> World Tuner.Model -> World Tuner.Model :=
  fun _ s => s.

(** The API handler with the socket handlers over these stand-ins. *)
Definition socketApi : Handler (S := World Tuner.Model) :=
  Api.ServeHTTP csrf_Check unmarshalStop unmarshalTune
    (Sockets.handleSocket csrf_Check handshakeError validChallengeKey StatusText
       session)
    (Sockets.handleSocket csrf_Check handshakeError validChallengeKey StatusText
       session)
    redirect.

End Samples.

(** ** The order of checks, as the specification words it *)

Module Checks.
Import Rpc.

Section Order.
Context {T S : Type}.
Variable zero : T.
Variable unmarshal : string -> option T.

(** What the framework decides about a POST request with body [data]. *)
Inductive Verdict : Type :=
| TooLarge
| WrongType
| Undecodable
| Accept (params : T).

(** The size check comes first, then (for a body that is not empty) the
    Content-Type check, then JSON decoding; an empty body is accepted with
    the zero value of the parameters. *)
Definition verdict (limit : Z) (r : Request) (data : string) : Verdict :=
  if limit <? Len data then TooLarge
  else if Len data =? 0 then Accept zero
  else if badContentType r then WrongType
  else match unmarshal data with
       | None => Undecodable
       | Some params => Accept params
       end.

(** The response to each verdict: 413, 415 and 400 with the framework's
    error bodies, and otherwise what the handler function returns. *)
Definition reply (h : HandlerFunc (T:=T) (S:=S)) (v : Verdict)
    : Handler (S:=S) := fun w r s =>
  match v with
  | TooLarge => (respondError w errBodyTooLarge, s)
  | WrongType => (respondError w errInvalidBodyType, s)
  | Undecodable => (respondError w errInvalidBody, s)
  | Accept params => invoke h w r params s
  end.

(** A handler function that does not look at [r.Body]. *)
Definition ignoresBody (h : HandlerFunc (T:=T) (S:=S)) : Prop :=
  forall r b params s, h (with_Body r b) params s = h r params s.

End Order.
End Checks.

(** The two routes whose handlers are not among the sources. *)
Definition socketPath (r : Request) : Prop :=
  Path r = "/api/socket/webrtc-peer" \/ Path r = "/api/socket/tuner-status".

(** * Properties *)

Import Rpc.

Example sample_tune_ok :
  let '(w, s) := Samples.api newResponse
      (Samples.post "/api/rpc/tune" Samples.jsonHeaders (Samples.tuneBody "ABC"))
      (Samples.tunerWith ["ABC"; "NBC"]) in
  (Code w, Written w, Api.calls s) = (Some 204, [], [Api.CallTune "ABC"]).
Proof. vm_compute. reflexivity. Qed.

Example sample_tune_unknown :
  let '(w, s) := Samples.api newResponse
      (Samples.post "/api/rpc/tune" Samples.jsonHeaders (Samples.tuneBody "XYZ"))
      (Samples.tunerWith ["ABC"; "NBC"]) in
  (Code w, Written w) =
  (Some 400, [JsonDoc (JObject [("Error", JString "channel not found")])]).
Proof. vm_compute. reflexivity. Qed.

Example sample_channels :
  let '(w, s) := Samples.api newResponse
      (Samples.get "/api/config/channels" ∅) (Samples.tunerWith ["ABC"; "NBC"]) in
  (StatusCode w, Header_Get (RespHeader w) "Content-Type", Written w) =
  (200, "application/json", [JsonDoc (JArray [JString "ABC"; JString "NBC"])]).
Proof. vm_compute. reflexivity. Qed.

(** ** The RPC framework *)

Section FrameworkFacts.
Context {T S : Type}.
Variable zero : T.
Variable unmarshal : string -> option T.
Implicit Types (h : HandlerFunc (T:=T) (S:=S)) (w : ResponseWriter) (r : Request).

Lemma respondIfBadMethod_post w r :
  Method r = MethodPost -> respondIfBadMethod w r = (w, false).
Proof.
  intros Hm. unfold respondIfBadMethod. rewrite Hm. reflexivity.
Qed.

Lemma respondIfBadMethod_other w r :
  Method r <> MethodPost ->
  respondIfBadMethod w r =
  (WriteHeader StatusMethodNotAllowed (AddHeader "Allow" MethodPost w), true).
Proof.
  intros Hm. unfold respondIfBadMethod.
  destruct (String.eqb_spec (Method r) MethodPost) as [E|E]; [contradiction|reflexivity].
Qed.

Lemma Len_nonneg (data : string) : 0 <= Len data.
Proof. unfold Len. lia. Qed.

Lemma Len_zero (data : string) : Len data = 0 <-> data = EmptyString.
Proof.
  unfold Len. destruct data as [|c data]; cbn [String.length]; split; intros E;
    try reflexivity; try discriminate; lia.
Qed.

(** [ServeHTTP] on a body that [WithLimitedBodyBuffer] has buffered. *)
Lemma ServeHTTP_buffered h w r buf s :
  Method r = MethodPost ->
  ReqBody r = bufferedBody buf ->
  ServeHTTP zero unmarshal h w r s =
  Checks.reply h (Checks.verdict zero unmarshal (Len buf) r buf) w r s.
Proof.
  intros Hm Hb. unfold ServeHTTP, Checks.verdict.
  rewrite (respondIfBadMethod_post _ _ Hm), Hb.
  rewrite Z.ltb_irrefl.
  destruct (Z.eqb_spec (Len buf) 0) as [E|E].
  - rewrite E. reflexivity.
  - assert ((0 <? Len buf) = true) as -> by (pose proof (Len_nonneg buf); lia).
    destruct (badContentType r); [reflexivity|].
    destruct (unmarshal buf); reflexivity.
Qed.

(** [Handle] and [ServeHTTP] do the same on a buffered body. *)
Lemma Handle_buffered h w r buf s :
  ReqBody r = bufferedBody buf ->
  Handle zero unmarshal h w r s = ServeHTTP zero unmarshal h w r s.
Proof.
  intros Hb. unfold Handle, ServeHTTP.
  destruct (respondIfBadMethod w r) as [w' [|]]; [reflexivity|].
  rewrite Hb.
  destruct (0 <? Len buf); [|reflexivity].
  destruct (badContentType r); [reflexivity|].
  destruct (unmarshal buf); reflexivity.
Qed.

(** What [http.MaxBytesReader] leaves of a body that reads without error. *)
Lemma MaxBytesReader_within (data : string) (err : option error) (limit : Z) :
  Len data <= Z.max limit 0 ->
  ReadFrom (MaxBytesReader (Stream data err) limit) = (data, err).
Proof.
  intros Hle. unfold MaxBytesReader. simpl.
  assert ((Z.max limit 0 <? Len data) = false) as -> by lia. reflexivity.
Qed.

Lemma MaxBytesReader_beyond (data : string) (err : option error) (limit : Z) :
  Z.max limit 0 < Len data ->
  ReadFrom (MaxBytesReader (Stream data err) limit) =
  (substring 0 (Z.to_nat (Z.max limit 0)) data, Some (ErrMaxBytes (Z.max limit 0))).
Proof.
  intros Hlt. unfold MaxBytesReader. simpl.
  assert ((Z.max limit 0 <? Len data) = true) as -> by lia. reflexivity.
Qed.

(** The two-stage handler on a POST whose body reads without error. *)
Lemma two_stage h w r data limit s :
  Method r = MethodPost ->
  ReqBody r = Stream data None ->
  WithLimitedBodyBuffer limit (ServeHTTP zero unmarshal h) w r s =
  Checks.reply h (Checks.verdict zero unmarshal (Z.max limit 0) r data) w
    (with_Body r (bufferedBody data)) s.
Proof.
  intros Hm Hb. unfold WithLimitedBodyBuffer.
  rewrite (respondIfBadMethod_post _ _ Hm), Hb.
  destruct (Z.ltb_spec (Z.max limit 0) (Len data)) as [Hlt|Hle].
  - rewrite (MaxBytesReader_beyond _ _ _ Hlt).
    unfold Checks.verdict.
    assert ((Z.max limit 0 <? Len data) = true) as -> by lia. reflexivity.
  - rewrite (MaxBytesReader_within _ _ _ Hle).
    rewrite (ServeHTTP_buffered h w (with_Body r (bufferedBody data)) data s Hm eq_refl).
    unfold Checks.verdict. rewrite Z.ltb_irrefl.
    assert ((Z.max limit 0 <? Len data) = false) as -> by lia.
    reflexivity.
Qed.

End FrameworkFacts.

Lemma Header_Get_missing (hd : Header) (key : string) :
  hd !! key = None -> Header_Get hd key = EmptyString.
Proof. intros E. unfold Header_Get. rewrite E. reflexivity. Qed.

Lemma badContentType_true (r : Request) :
  ReqHeader r !! "Content-Type" = None \/
  Header_Get (ReqHeader r) "Content-Type" <> "application/json" ->
  badContentType r = true.
Proof.
  intros Hct. unfold badContentType.
  destruct (String.eqb_spec (Header_Get (ReqHeader r) "Content-Type") "application/json")
    as [E|E]; [|reflexivity].
  destruct Hct as [Hnone|Hne]; [|contradiction].
  rewrite (Header_Get_missing _ _ Hnone) in E. discriminate.
Qed.

Lemma badContentType_false (r : Request) :
  Header_Get (ReqHeader r) "Content-Type" = "application/json" ->
  badContentType r = false.
Proof. intros E. unfold badContentType. rewrite E. reflexivity. Qed.

(** C5. A POST with a non-empty body within the size limit is answered
    415 when its Content-Type header is missing or is not exactly
    application/json, and 400 when the header is right but the body does
    not decode into the handler's parameter type; in both cases the handler
    function is not called (its call record and the state are unchanged). *)
Theorem rpc_content_type_then_decoding
    {T S : Type} (zero : T) (unmarshal : string -> option T)
    (h : HandlerFunc (T:=T) (S:=S)) (limit : Z) (r : Request) (data : string)
    (s : S) (log : list T) :
  Method r = MethodPost ->
  ReqBody r = Stream data None ->
  data <> EmptyString ->
  Len data <= limit ->
  let served :=
    WithLimitedBodyBuffer limit (ServeHTTP zero unmarshal (spy h))
      newResponse r (s, log) in
  (ReqHeader r !! "Content-Type" = None \/
   Header_Get (ReqHeader r) "Content-Type" <> "application/json" ->
   StatusCode (fst served) = 415 /\
   Written (fst served) = [JsonDoc (errorBody errInvalidBodyType)] /\
   snd served = (s, log)) /\
  (Header_Get (ReqHeader r) "Content-Type" = "application/json" ->
   unmarshal data = None ->
   StatusCode (fst served) = 400 /\
   Written (fst served) = [JsonDoc (errorBody errInvalidBody)] /\
   snd served = (s, log)).
Proof.
  intros Hm Hb Hne Hle served. subst served.
  rewrite (two_stage zero unmarshal (spy h) newResponse r data limit (s, log) Hm Hb).
  unfold Checks.verdict.
  assert ((Z.max limit 0 <? Len data) = false) as -> by lia.
  assert ((Len data =? 0) = false) as ->.
  { apply Z.eqb_neq. intros E. apply Len_zero in E. contradiction. }
  split.
  - intros Hct. rewrite (badContentType_true r Hct). cbn. auto.
  - intros Hct Hum. rewrite (badContentType_false r Hct), Hum. cbn. auto.
Qed.

(** C5 at a request without Content-Type header and at one with invalid
    JSON, limit 32. *)
Lemma rpc_content_type_then_decoding_witness :
  let unsupported :=
    WithLimitedBodyBuffer 32
      (ServeHTTP Api.zeroTuneParams Samples.unmarshalTune
         (spy (fun _ _ (s : unit) => ((StatusNoContent, nil), s))))
      newResponse (Samples.post "/" ∅ "{{{]]]") (tt, []) in
  StatusCode (fst unsupported) = 415 /\
  Written (fst unsupported) = [JsonDoc (errorBody errInvalidBodyType)] /\
  snd unsupported = (tt, []).
Proof.
  apply (rpc_content_type_then_decoding Api.zeroTuneParams Samples.unmarshalTune
           (fun _ _ (s : unit) => ((StatusNoContent, nil), s)) 32
           (Samples.post "/" ∅ "{{{]]]") "{{{]]]" tt []).
  - reflexivity.
  - reflexivity.
  - discriminate.
  - vm_compute. discriminate.
  - left. reflexivity.
Defined.

(** The final status codes under which the server sends a body. *)
Lemma final_code_with_body (code : Z) :
  200 <= code <= 999 -> code <> 204 -> code <> 304 ->
  validCode code = true /\ informational code = false /\
  bodyAllowedForStatus code = true.
Proof.
  intros Hr H204 H304. unfold validCode, informational, bodyAllowedForStatus.
  assert ((100 <=? code) = true) as -> by lia.
  assert ((code <=? 999) = true) as -> by lia.
  assert ((code <=? 199) = false) as -> by lia.
  assert ((code =? 204) = false) as -> by lia.
  assert ((code =? 304) = false) as -> by lia.
  repeat split.
Qed.

(** The final status codes: 101 and 200 to 999. *)
(** An error body under a final status code that allows a body. *)
Lemma respond_error_final (w : ResponseWriter) (code : Z) (err : error) :
  w = newResponse ->
  200 <= code <= 999 -> code <> 204 -> code <> 304 ->
  respond w code (anError err) =
  mkResponse {[ "Content-Type" := ["application/json"] ]} (Some code)
    [JsonDoc (JObject [("Error", JString (Error err))])].
Proof.
  intros -> Hr H204 H304.
  destruct (final_code_with_body code Hr H204 H304) as (Hv & Hi & Hb).
  unfold respond, Encode, Write, WriteHeader.
  cbn -[validCode informational bodyAllowedForStatus].
  rewrite Hv, Hi. cbn -[validCode informational bodyAllowedForStatus].
  rewrite Hb. reflexivity.
Qed.

Lemma final_code (code : Z) :
  code = 101 \/ 200 <= code <= 999 ->
  validCode code = true /\ informational code = false.
Proof.
  intros Hr. unfold validCode, informational.
  destruct Hr as [->|Hr]; [split; reflexivity|].
  assert ((100 <=? code) = true) as -> by lia.
  assert ((code <=? 999) = true) as -> by lia.
  assert ((code <=? 199) = false) as -> by lia.
  split; reflexivity.
Qed.

(** C6, as the code has it.  Under a status code from 200 to 999 other
    than 204 and 304, an error returned as body is written as the JSON
    object whose [Error] key holds the error's message; under 101 or a
    code from 200 to 999 a nil body leaves the status code and nothing
    else; this is what happens to the result of every handler function
    call and to every error the framework raises itself.  A request whose
    method is not POST is answered 405 with [Allow: POST] by each handler
    of the framework, whatever its body and headers are, and the handler
    function is not called. *)
Theorem rpc_response_shape :
  (forall (code : Z) (err : error),
     200 <= code <= 999 -> code <> 204 -> code <> 304 ->
     respond newResponse code (anError err) =
     mkResponse {[ "Content-Type" := ["application/json"] ]} (Some code)
       [JsonDoc (JObject [("Error", JString (Error err))])]) /\
  (forall (code : Z),
     code = 101 \/ 200 <= code <= 999 ->
     respond newResponse code nil = mkResponse ∅ (Some code) []) /\
  (forall (err : error),
     respondError newResponse err = respond newResponse (errorHTTPCode err) (anError err)) /\
  (forall (T S : Type) (h : HandlerFunc (T:=T) (S:=S)) r params s,
     invoke h newResponse r params s =
     (respond newResponse (fst (fst (h r params s))) (snd (fst (h r params s))),
      snd (h r params s))) /\
  (forall (T S : Type) (zero : T) (unmarshal : string -> option T)
          (h : HandlerFunc (T:=T) (S:=S)) (limit : Z) (r : Request)
          (s : S) (log : list T),
     Method r <> MethodPost ->
     let denied :=
       (mkResponse {[ "Allow" := ["POST"] ]} (Some 405) [], (s, log)) in
     ServeHTTP zero unmarshal (spy h) newResponse r (s, log) = denied /\
     Handle zero unmarshal (spy h) newResponse r (s, log) = denied /\
     WithLimitedBodyBuffer limit (ServeHTTP zero unmarshal (spy h))
       newResponse r (s, log) = denied).
Proof.
  split; [|split; [|split; [|split]]].
  - intros code err Hr H204 H304.
    destruct (final_code_with_body code Hr H204 H304) as (Hv & Hi & Hb).
    unfold respond, Encode, Write, WriteHeader.
    cbn -[validCode informational bodyAllowedForStatus].
    rewrite Hv, Hi. cbn -[validCode informational bodyAllowedForStatus].
    rewrite Hb. reflexivity.
  - intros code Hr. destruct (final_code code Hr) as (Hv & Hi).
    unfold respond, WriteHeader. cbn -[validCode informational].
    rewrite Hv, Hi. reflexivity.
  - reflexivity.
  - intros T S h r params s. unfold invoke.
    destruct (h r params s) as [[code body] s']. reflexivity.
  - intros T S zero unmarshal h limit r s log Hm. cbv zeta. repeat split.
    + unfold ServeHTTP. rewrite (respondIfBadMethod_other _ _ Hm). reflexivity.
    + unfold Handle. rewrite (respondIfBadMethod_other _ _ Hm). reflexivity.
    + unfold WithLimitedBodyBuffer. rewrite (respondIfBadMethod_other _ _ Hm).
      reflexivity.
Qed.

(** C6 at the error that the size limit raises, under its code 413. *)
Lemma rpc_response_shape_witness :
  respond newResponse 413 (anError errBodyTooLarge) =
  mkResponse {[ "Content-Type" := ["application/json"] ]} (Some 413)
    [JsonDoc (JObject [("Error", JString "RPC body exceeded maximum size")])].
Proof.
  apply (proj1 rpc_response_shape 413 errBodyTooLarge).
  - lia.
  - discriminate.
  - discriminate.
Defined.

(** C6 as stated fails for status codes that a handler function is free
    to return: under 204 (and 304) the server sends no body, so an error
    returned with it is not written; a code outside 100..999 makes
    [WriteHeader] panic, so that no status is written at all; and a 1xx
    code other than 101 is sent as an informational response, not as the
    status of the response. *)
Lemma bodyless_and_invalid_codes :
  let err := ErrLeaf "errors.New" "nothing to report" in
  respond newResponse 204 (anError err) =
    mkResponse {[ "Content-Type" := ["application/json"] ]} (Some 204) [] /\
  respond newResponse 0 nil = mkWriter ∅ None [] [] true /\
  respond newResponse 103 nil = mkWriter ∅ None [] [103] false.
Proof. vm_compute. repeat split. Qed.

(** A POST whose body is completely empty reaches the handler function
    with the zero value of its parameter type. *)
Lemma empty_body_zero_params
    {T S : Type} (zero : T) (unmarshal : string -> option T)
    (h : HandlerFunc (T:=T) (S:=S)) (limit : Z) (r : Request) (s : S) :
  Method r = MethodPost ->
  ReqBody r = Stream EmptyString None ->
  WithLimitedBodyBuffer limit (ServeHTTP zero unmarshal h) newResponse r s =
  invoke h newResponse (with_Body r (bufferedBody EmptyString)) zero s.
Proof.
  intros Hm Hb.
  rewrite (two_stage zero unmarshal h newResponse r EmptyString limit s Hm Hb).
  unfold Checks.verdict.
  assert ((Z.max limit 0 <? Len EmptyString) = false) as ->
    by (apply Z.ltb_ge; change (Len EmptyString) with 0; lia).
  reflexivity.
Qed.

(** [WithLimitedBodyBuffer] in front of any handler. *)
Lemma limited_too_large {S : Type} (handle : Handler (S:=S)) w r data err limit s :
  Method r = MethodPost ->
  ReqBody r = Stream data err ->
  Z.max limit 0 < Len data ->
  WithLimitedBodyBuffer limit handle w r s = (respondError w errBodyTooLarge, s).
Proof.
  intros Hm Hb Hlt. unfold WithLimitedBodyBuffer.
  rewrite (respondIfBadMethod_post _ _ Hm), Hb, (MaxBytesReader_beyond _ _ _ Hlt).
  reflexivity.
Qed.

Lemma limited_within {S : Type} (handle : Handler (S:=S)) w r data limit s :
  Method r = MethodPost ->
  ReqBody r = Stream data None ->
  Len data <= Z.max limit 0 ->
  WithLimitedBodyBuffer limit handle w r s =
  handle w (with_Body r (bufferedBody data)) s.
Proof.
  intros Hm Hb Hle. unfold WithLimitedBodyBuffer.
  rewrite (respondIfBadMethod_post _ _ Hm), Hb, (MaxBytesReader_within _ _ _ Hle).
  reflexivity.
Qed.

(** ** The API handler *)

Lemma rpc_path_not_channels (p : string) :
  Api.HasPrefix p "/api/rpc/" = true -> String.eqb p "/api/config/channels" = false.
Proof.
  intros Hp. destruct (String.eqb_spec p "/api/config/channels") as [E|E]; [|reflexivity].
  subst p. vm_compute in Hp. discriminate.
Qed.

Section ApiFacts.
Context {Tn : Type} `{Tuner.Ops Tn}.
Variable csrf_Check : Request -> option error.
Variable unmarshalStop : string -> option unit.
Variable unmarshalTune : string -> option Api.TuneParams.
Variable handleSocketWebRTCPeer : Handler (S := Api.World Tn).
Variable handleSocketTunerStatus : Handler (S := Api.World Tn).
Variable redirect : string -> ResponseWriter -> Request -> ResponseWriter.

Local Abbreviation serve :=
  (Api.ServeHTTP csrf_Check unmarshalStop unmarshalTune
     handleSocketWebRTCPeer handleSocketTunerStatus redirect).
Local Abbreviation rpcMux := (Api.rpcMux unmarshalStop unmarshalTune).

(** A request whose path is clean, and is not the bare root of the RPC
    subtree, is routed as it is. *)
Lemma serve_clean w r s :
  cleanPath (Path r) = Path r ->
  Path r <> "/api/rpc" ->
  serve w r s =
  Api.routes csrf_Check unmarshalStop unmarshalTune
    handleSocketWebRTCPeer handleSocketTunerStatus w r s.
Proof.
  intros Hclean Hroot. unfold Api.ServeHTTP.
  destruct (String.eqb_spec (Path r) "*") as [E|_];
    [rewrite E in Hclean; vm_compute in Hclean; discriminate|].
  destruct (String.eqb (Method r) "CONNECT"); rewrite ?Hclean;
    (destruct (String.eqb_spec (Path r) "/api/rpc") as [E|_]; [contradiction|]);
    rewrite String.eqb_refl; reflexivity.
Qed.

Lemma rpc_path_not_root (p : string) :
  Api.HasPrefix p "/api/rpc/" = true -> p <> "/api/rpc".
Proof. intros Hp ->. vm_compute in Hp. discriminate. Qed.

(** A request under /api/rpc/ goes through the cross-origin gate. *)
Lemma serve_rpc w r s :
  cleanPath (Path r) = Path r ->
  Api.HasPrefix (Path r) "/api/rpc/" = true ->
  serve w r s =
  match csrf_Check r with
  | Some err => (http_Error (Error err) StatusForbidden w, s)
  | None => WithLimitedBodyBuffer 1024 rpcMux w r s
  end.
Proof.
  intros Hclean Hp.
  rewrite (serve_clean w r s Hclean (rpc_path_not_root _ Hp)).
  unfold Api.routes. rewrite (rpc_path_not_channels _ Hp), Hp. reflexivity.
Qed.

(** An admitted POST with a readable body of at most 1024 bytes reaches
    the RPC routes with its body buffered. *)
Lemma serve_rpc_admitted w r data s :
  Method r = MethodPost ->
  cleanPath (Path r) = Path r ->
  Api.HasPrefix (Path r) "/api/rpc/" = true ->
  csrf_Check r = None ->
  ReqBody r = Stream data None ->
  Len data <= 1024 ->
  serve w r s = rpcMux w (with_Body r (bufferedBody data)) s.
Proof.
  intros Hm Hclean Hp Hc Hb Hle. rewrite (serve_rpc w r s Hclean Hp), Hc.
  apply limited_within; [assumption|assumption|lia].
Qed.

(** ... and, on /api/rpc/tune, the handler function [rpcTune] according to
    the framework's verdict. *)
Lemma serve_tune w r data s :
  Method r = MethodPost ->
  Path r = "/api/rpc/tune" ->
  csrf_Check r = None ->
  ReqBody r = Stream data None ->
  Len data <= 1024 ->
  serve w r s =
  Checks.reply Api.rpcTune
    (Checks.verdict Api.zeroTuneParams unmarshalTune (Len data) r data)
    w (with_Body r (bufferedBody data)) s.
Proof.
  intros Hm Hp Hc Hb Hle.
  rewrite (serve_rpc_admitted w r data s Hm) by (rewrite ?Hp; auto).
  unfold Api.rpcMux. cbn [Path with_Body]. rewrite Hp. cbn [String.eqb Ascii.eqb Bool.eqb].
  rewrite (Handle_buffered _ _ _ w (with_Body r (bufferedBody data)) data s eq_refl).
  rewrite (ServeHTTP_buffered _ _ _ w (with_Body r (bufferedBody data)) data s Hm eq_refl).
  reflexivity.
Qed.

Lemma serve_stop w r data s :
  Method r = MethodPost ->
  Path r = "/api/rpc/stop" ->
  csrf_Check r = None ->
  ReqBody r = Stream data None ->
  Len data <= 1024 ->
  serve w r s =
  Checks.reply Api.rpcStop
    (Checks.verdict tt unmarshalStop (Len data) r data)
    w (with_Body r (bufferedBody data)) s.
Proof.
  intros Hm Hp Hc Hb Hle.
  rewrite (serve_rpc_admitted w r data s Hm) by (rewrite ?Hp; auto).
  unfold Api.rpcMux. cbn [Path with_Body]. rewrite Hp. cbn [String.eqb Ascii.eqb Bool.eqb].
  rewrite (Handle_buffered _ _ _ w (with_Body r (bufferedBody data)) data s eq_refl).
  rewrite (ServeHTTP_buffered _ _ _ w (with_Body r (bufferedBody data)) data s Hm eq_refl).
  reflexivity.
Qed.

(** The handler function [rpcTune] on a non-empty channel name. *)
Lemma rpcTune_named r params s :
  Api.ChannelName params <> EmptyString ->
  Api.rpcTune r params s =
  let '(err, t) := Tuner.Tune (Api.tuner s) (Api.ChannelName params) in
  let s' := Api.mkWorld t (Api.calls s ++ [Api.CallTune (Api.ChannelName params)])%list in
  match err with
  | None => ((StatusNoContent, nil), s')
  | Some err =>
      if Is err Tuner.ErrChannelNotFound
      then ((StatusBadRequest, anError err), s')
      else ((StatusInternalServerError, anError err), s')
  end.
Proof.
  intros Hn. unfold Api.rpcTune, Api.tuner_Tune.
  destruct (String.eqb_spec (Api.ChannelName params) EmptyString) as [E|E];
    [contradiction|].
  destruct (Tuner.Tune (Api.tuner s) (Api.ChannelName params)) as [[err|] t];
    reflexivity.
Qed.

(** C1. A POST to /api/rpc/tune that the cross-origin gate admits, whose
    body passes the framework's validation (at most 1024 bytes, Content-Type
    application/json, decodable) and carries a non-empty ChannelName, has
    [Tune] called once with that name and is answered by its result: 204
    with no body for nil, 400 (not 404) for an error that
    [errors.Is(err, tuner.ErrChannelNotFound)], 500 for any other error; an
    error is sent as the JSON object holding its message. *)
Theorem tune_status_by_tuner_result
    (r : Request) (data : string) (params : Api.TuneParams) (s : Api.World Tn) :
  Method r = MethodPost ->
  Path r = "/api/rpc/tune" ->
  csrf_Check r = None ->
  ReqBody r = Stream data None ->
  Len data <= 1024 ->
  data <> EmptyString ->
  Header_Get (ReqHeader r) "Content-Type" = "application/json" ->
  unmarshalTune data = Some params ->
  Api.ChannelName params <> EmptyString ->
  let served := serve newResponse r s in
  let result := Tuner.Tune (Api.tuner s) (Api.ChannelName params) in
  snd served =
    Api.mkWorld (snd result)
      (Api.calls s ++ [Api.CallTune (Api.ChannelName params)])%list /\
  match fst result with
  | None => fst served = mkResponse ∅ (Some 204) []
  | Some err =>
      StatusCode (fst served) =
        (if Is err Tuner.ErrChannelNotFound then 400 else 500) /\
      StatusCode (fst served) <> 404 /\
      Written (fst served) = [JsonDoc (errorBody err)]
  end.
Proof.
  intros Hm Hp Hc Hb Hle Hne Hct Hum Hn served result. subst served result.
  rewrite (serve_tune newResponse r data s Hm Hp Hc Hb Hle).
  unfold Checks.verdict. rewrite Z.ltb_irrefl.
  assert ((Len data =? 0) = false) as ->.
  { apply Z.eqb_neq. intros E. apply Len_zero in E. contradiction. }
  rewrite (badContentType_false r Hct), Hum.
  unfold Checks.reply, invoke. rewrite (rpcTune_named _ params s Hn).
  destruct (Tuner.Tune (Api.tuner s) (Api.ChannelName params)) as [[err|] t]; cbn.
  - destruct (Is err Tuner.ErrChannelNotFound); cbn; repeat split; discriminate.
  - split; reflexivity.
Qed.

(** C7. Whenever the parameters that reach [rpcTune] have an empty
    ChannelName, the handler function returns 400 with the error "channel
    name required" and leaves the tuner alone.  So an admitted POST to
    /api/rpc/tune whose parameters decode with an empty ChannelName, from a
    JSON body or as the zero value to an empty body, is answered 400 with
    the JSON object holding that message, and no call is made on the
    tuner. *)
Theorem tune_requires_channel_name
    (r : Request) (data : string) (params : Api.TuneParams) (s : Api.World Tn) :
  Api.ChannelName params = EmptyString ->
  Api.rpcTune r params s =
    ((StatusBadRequest, anError (ErrLeaf "api.rpcTune" "channel name required")), s) /\
  (Method r = MethodPost ->
   Path r = "/api/rpc/tune" ->
   csrf_Check r = None ->
   ReqBody r = Stream data None ->
   Len data <= 1024 ->
   (data = EmptyString /\ params = Api.zeroTuneParams) \/
   (data <> EmptyString /\
    Header_Get (ReqHeader r) "Content-Type" = "application/json" /\
    unmarshalTune data = Some params) ->
   serve newResponse r s =
   (mkResponse {[ "Content-Type" := ["application/json"] ]} (Some 400)
      [JsonDoc (JObject [("Error", JString "channel name required")])], s)).
Proof.
  intros Hn.
  assert (Hh : forall r', Api.rpcTune r' params s =
    ((StatusBadRequest, anError (ErrLeaf "api.rpcTune" "channel name required")), s)).
  { intros r'. unfold Api.rpcTune. rewrite Hn. reflexivity. }
  split; [apply Hh|].
  intros Hm Hp Hc Hb Hle Hdec.
  rewrite (serve_tune newResponse r data s Hm Hp Hc Hb Hle).
  unfold Checks.verdict. rewrite Z.ltb_irrefl.
  destruct Hdec as [[Hd Hz]|[Hd [Hct Hum]]].
  - subst data params. change (Len EmptyString =? 0) with true.
    cbn match. unfold Checks.reply, invoke. rewrite Hh. reflexivity.
  - assert ((Len data =? 0) = false) as ->.
    { apply Z.eqb_neq. intros E. apply Len_zero in E. contradiction. }
    rewrite (badContentType_false r Hct), Hum.
    unfold Checks.reply, invoke. rewrite Hh. reflexivity.
Qed.

End ApiFacts.

Section ApiClaims.
Context {Tn : Type} `{Tuner.Ops Tn}.
Variable csrf_Check : Request -> option error.
Variable unmarshalStop : string -> option unit.
Variable unmarshalTune : string -> option Api.TuneParams.
Variable handleSocketWebRTCPeer : Handler (S := Api.World Tn).
Variable handleSocketTunerStatus : Handler (S := Api.World Tn).
Variable redirect : string -> ResponseWriter -> Request -> ResponseWriter.

Local Abbreviation serve :=
  (Api.ServeHTTP csrf_Check unmarshalStop unmarshalTune
     handleSocketWebRTCPeer handleSocketTunerStatus redirect).

(** C9. A POST whose body is completely empty reaches the handler
    function with the zero value of its parameter type, whatever its
    Content-Type header is and whatever the decoder would say: neither is
    consulted.  So an admitted POST to /api/rpc/stop with an empty body
    calls [Stop] and is answered 204 with no body when [Stop] returns
    nil, with or without a Content-Type header. *)
Theorem empty_body_skips_validation :
  (forall (T S : Type) (zero : T) (unmarshal : string -> option T)
          (h : HandlerFunc (T:=T) (S:=S)) (limit : Z) (r : Request)
          (s : S) (log : list T),
     Method r = MethodPost ->
     ReqBody r = Stream EmptyString None ->
     WithLimitedBodyBuffer limit (ServeHTTP zero unmarshal (spy h))
       newResponse r (s, log) =
     let '((code, body), s') :=
       h (with_Body r (bufferedBody EmptyString)) zero s in
     (respond newResponse code body, (s', (log ++ [zero])%list))) /\
  (forall (r : Request) (s : Api.World Tn) (t' : Tn),
     Method r = MethodPost ->
     Path r = "/api/rpc/stop" ->
     csrf_Check r = None ->
     ReqBody r = Stream EmptyString None ->
     Tuner.Stop (Api.tuner s) = (None, t') ->
     serve newResponse r s =
     (mkResponse ∅ (Some 204) [],
      Api.mkWorld t' (Api.calls s ++ [Api.CallStop])%list)).
Proof.
  split.
  - intros T S zero unmarshal h limit r s log Hm Hb.
    rewrite (empty_body_zero_params zero unmarshal (spy h) limit r (s, log) Hm Hb).
    unfold invoke, spy.
    destruct (h (with_Body r (bufferedBody EmptyString)) zero s) as [[code body] s'].
    reflexivity.
  - intros r s t' Hm Hp Hc Hb Hstop.
    rewrite (serve_stop csrf_Check unmarshalStop unmarshalTune _ _ _
               newResponse r EmptyString s Hm Hp Hc Hb)
      by (change (Len EmptyString) with 0; lia).
    unfold Checks.verdict. change (Len EmptyString) with 0. cbn [Z.ltb Z.eqb Z.compare].
    unfold Checks.reply, invoke, Api.rpcStop, Api.tuner_Stop.
    rewrite Hstop. reflexivity.
Qed.

(** C4, as the code has it.  A POST to a clean path under /api/rpc/ (a
    path that the mux routes as it is, without a redirect) that the
    cross-origin gate admits and whose body exceeds 1024 bytes is answered
    413 with the JSON object holding "RPC body exceeded maximum size", and
    the handler behind the limit is not served (whatever handler stands
    there, its count and the state are unchanged); a body of 1024 bytes or
    fewer that reads without error is handed on, buffered, to the RPC
    routes. *)
Theorem rpc_body_limit_behind_gate
    (r : Request) (data : string) (err : option error) (s : Api.World Tn) :
  Method r = MethodPost ->
  cleanPath (Path r) = Path r ->
  Api.HasPrefix (Path r) "/api/rpc/" = true ->
  csrf_Check r = None ->
  ReqBody r = Stream data err ->
  let tooLarge :=
    mkResponse {[ "Content-Type" := ["application/json"] ]} (Some 413)
      [JsonDoc (JObject [("Error", JString "RPC body exceeded maximum size")])] in
  (1024 < Len data ->
   serve newResponse r s = (tooLarge, s) /\
   forall (S : Type) (handle : Handler (S:=S)) (s0 : S) (n : nat),
     WithLimitedBodyBuffer 1024 (counted handle) newResponse r (s0, n) =
     (tooLarge, (s0, n))) /\
  (Len data <= 1024 -> err = None ->
   serve newResponse r s =
   Api.rpcMux unmarshalStop unmarshalTune newResponse
     (with_Body r (bufferedBody data)) s).
Proof.
  intros Hm Hclean Hp Hc Hb tooLarge. split.
  - intros Hlt. split.
    + rewrite (serve_rpc csrf_Check unmarshalStop unmarshalTune _ _ _
                 newResponse r s Hclean Hp), Hc.
      rewrite (limited_too_large _ newResponse r data err 1024 s Hm Hb) by lia.
      reflexivity.
    + intros S handle s0 n.
      rewrite (limited_too_large _ newResponse r data err 1024 (s0, n) Hm Hb) by lia.
      reflexivity.
  - intros Hle ->.
    apply (serve_rpc_admitted csrf_Check unmarshalStop unmarshalTune _ _ _
             newResponse r data s Hm Hclean Hp Hc Hb Hle).
Qed.

(** The upgrader lets a request through exactly when the cross-origin
    check accepts it with its method replaced by POST; the request's own
    method plays no part. *)
Lemma websocket_origin_checked_as_post (r : Request) :
  (Api.websocketUpgrader_CheckOrigin csrf_Check r = true <->
   csrf_Check (with_Method r MethodPost) = None) /\
  (forall m : string,
     Api.websocketUpgrader_CheckOrigin csrf_Check (with_Method r m) =
     Api.websocketUpgrader_CheckOrigin csrf_Check r) /\
  (csrf_Check (with_Method r MethodPost) <> None ->
   Api.websocketUpgrader_CheckOrigin csrf_Check r = false).
Proof.
  unfold Api.websocketUpgrader_CheckOrigin. repeat split.
  - destruct (csrf_Check (with_Method r MethodPost)); [discriminate|reflexivity].
  - intros ->. reflexivity.
  - destruct (csrf_Check (with_Method r MethodPost)); [reflexivity|contradiction].
Qed.

(** The channel list: status 200, Content-Type application/json, and one
    JSON document holding what [slices.Collect] made of the names. *)
Lemma channels_listing (r : Request) (s : Api.World Tn) :
  Method r = MethodGet ->
  Path r = "/api/config/channels" ->
  serve newResponse r s =
  (mkResponse {[ "Content-Type" := ["application/json"] ]} (Some 200)
     [JsonDoc (Api.marshal_strings
                 (Api.slices_Collect (Tuner.ChannelNames (Api.tuner s))))], s).
Proof.
  intros Hm Hp.
  rewrite (serve_clean csrf_Check unmarshalStop unmarshalTune _ _ _ newResponse r s)
    by (rewrite Hp; first [reflexivity|discriminate]).
  unfold Api.routes. rewrite Hp, Hm. reflexivity.
Qed.

(** With at least one channel the document is the array of the names, in
    the order in which the tuner yields them. *)
Lemma channels_listing_nonempty (r : Request) (s : Api.World Tn) :
  Method r = MethodGet ->
  Path r = "/api/config/channels" ->
  Tuner.ChannelNames (Api.tuner s) <> [] ->
  Written (fst (serve newResponse r s)) =
  [JsonDoc (JArray (List.map JString (Tuner.ChannelNames (Api.tuner s))))].
Proof.
  intros Hm Hp Hne. rewrite (channels_listing r s Hm Hp). cbn.
  destruct (Tuner.ChannelNames (Api.tuner s)); [contradiction|reflexivity].
Qed.

End ApiClaims.

(** ** The socket routes *)

Section SocketRoutes.
Context {Tn : Type} `{Tuner.Ops Tn}.
Variable csrf_Check : Request -> option error.
Variable unmarshalStop : string -> option unit.
Variable unmarshalTune : string -> option Api.TuneParams.
Variable redirect : string -> ResponseWriter -> Request -> ResponseWriter.
Variable handshakeError : Request -> option Z.
Variable validChallengeKey : Request -> bool.
Variable StatusText : Z -> string.
Variables peerSession statusSession : Request -> Api.World Tn -> Api.World Tn.

(** What the API handler answers to a WebSocket upgrade request on one of
    the two socket routes: the route's handler runs, its upgrade asks
    [CheckOrigin] of the package's upgrader, and the session of the route
    starts only when that returns true. *)
Lemma socket_route_served (r : Request) (s : Api.World Tn) :
  socketPath r ->
  Websocket.upgradeRequest handshakeError validChallengeKey r ->
  Api.ServeHTTP csrf_Check unmarshalStop unmarshalTune
    (Sockets.handleSocket csrf_Check handshakeError validChallengeKey StatusText
       peerSession)
    (Sockets.handleSocket csrf_Check handshakeError validChallengeKey StatusText
       statusSession)
    redirect newResponse r s =
  if Api.websocketUpgrader_CheckOrigin csrf_Check r
  then (mkResponse ∅ (Some 101) [],
        (if String.eqb (Path r) "/api/socket/webrtc-peer"
         then peerSession else statusSession) r s)
  else (Websocket.returnError StatusText StatusForbidden newResponse, s).
Proof.
  intros Hsock [Hh Hk].
  rewrite serve_clean.
  - unfold Api.routes, Sockets.handleSocket, Websocket.Upgrade.
    rewrite Hh, Hk.
    destruct Hsock as [Hp|Hp]; rewrite Hp;
      destruct (Api.websocketUpgrader_CheckOrigin csrf_Check r); reflexivity.
  - destruct Hsock as [Hp|Hp]; rewrite Hp; reflexivity.
  - destruct Hsock as [Hp|Hp]; rewrite Hp; discriminate.
Qed.

(** The upgrader's refusal carries the status 403. *)
Lemma returnError_forbidden :
  Code (Websocket.returnError StatusText StatusForbidden newResponse) = Some 403.
Proof. reflexivity. Qed.

End SocketRoutes.

(** C3.  On /api/socket/tuner-status and /api/socket/webrtc-peer, a
    WebSocket upgrade request (one that passes the other checks of the
    handshake) is upgraded, with status 101 and the session of the route
    started, if and only if the cross-origin check accepts the request
    with its method replaced by POST; otherwise it is answered 403 and no
    session starts.  With the check of net/http no cross-origin request is
    upgraded: neither one that a browser marks with a Sec-Fetch-Site other
    than [same-origin] and [none], nor one without that header whose Origin
    is not the request's host. *)
Theorem websocket_upgrade_gated {Tn : Type} `{Tuner.Ops Tn}
    (csrf_Check : Request -> option error)
    (unmarshalStop : string -> option unit)
    (unmarshalTune : string -> option Api.TuneParams)
    (redirect : string -> ResponseWriter -> Request -> ResponseWriter)
    (handshakeError : Request -> option Z)
    (validChallengeKey : Request -> bool)
    (StatusText : Z -> string)
    (peerSession statusSession : Request -> Api.World Tn -> Api.World Tn)
    (r : Request) (s : Api.World Tn) :
  socketPath r ->
  Websocket.upgradeRequest handshakeError validChallengeKey r ->
  let route check :=
    Api.ServeHTTP check unmarshalStop unmarshalTune
      (Sockets.handleSocket check handshakeError validChallengeKey StatusText
         peerSession)
      (Sockets.handleSocket check handshakeError validChallengeKey StatusText
         statusSession)
      redirect newResponse r s in
  let session :=
    if String.eqb (Path r) "/api/socket/webrtc-peer"
    then peerSession else statusSession in
  (Code (fst (route csrf_Check)) = Some 101 <->
   csrf_Check (with_Method r MethodPost) = None) /\
  (csrf_Check (with_Method r MethodPost) = None ->
   route csrf_Check = (mkResponse ∅ (Some 101) [], session r s)) /\
  (csrf_Check (with_Method r MethodPost) <> None ->
   Code (fst (route csrf_Check)) = Some 403 /\ snd (route csrf_Check) = s) /\
  (forall url_Host : string -> option string,
     let site := Header_Get (ReqHeader r) "Sec-Fetch-Site" in
     let origin := Header_Get (ReqHeader r) "Origin" in
     (site <> EmptyString /\ site <> "same-origin" /\ site <> "none") \/
     (site = EmptyString /\ origin <> EmptyString /\
      url_Host origin <> Some (Host r)) ->
     Code (fst (route (Csrf.Check url_Host))) = Some 403 /\
     snd (route (Csrf.Check url_Host)) = s).
Proof.
  intros Hsock Hup route session. subst route session. cbv beta.
  assert (Hdenied : forall check,
    check (with_Method r MethodPost) <> None ->
    Code (fst (Api.ServeHTTP check unmarshalStop unmarshalTune
      (Sockets.handleSocket check handshakeError validChallengeKey StatusText
         peerSession)
      (Sockets.handleSocket check handshakeError validChallengeKey StatusText
         statusSession)
      redirect newResponse r s)) = Some 403 /\
    snd (Api.ServeHTTP check unmarshalStop unmarshalTune
      (Sockets.handleSocket check handshakeError validChallengeKey StatusText
         peerSession)
      (Sockets.handleSocket check handshakeError validChallengeKey StatusText
         statusSession)
      redirect newResponse r s) = s).
  { intros check Hc.
    rewrite (socket_route_served check unmarshalStop unmarshalTune redirect
               handshakeError validChallengeKey StatusText peerSession
               statusSession r s Hsock Hup).
    unfold Api.websocketUpgrader_CheckOrigin.
    destruct (check (with_Method r MethodPost)); [|contradiction].
    split; reflexivity. }
  split; [|split; [|split]].
  - rewrite (socket_route_served csrf_Check unmarshalStop unmarshalTune redirect
               handshakeError validChallengeKey StatusText peerSession
               statusSession r s Hsock Hup).
    unfold Api.websocketUpgrader_CheckOrigin.
    destruct (csrf_Check (with_Method r MethodPost)); cbn [fst].
    + rewrite returnError_forbidden. split; discriminate.
    + split; reflexivity.
  - intros Hc.
    rewrite (socket_route_served csrf_Check unmarshalStop unmarshalTune redirect
               handshakeError validChallengeKey StatusText peerSession
               statusSession r s Hsock Hup).
    unfold Api.websocketUpgrader_CheckOrigin. rewrite Hc. reflexivity.
  - apply Hdenied.
  - intros url_Host site origin Hcross. subst site origin.
    apply Hdenied. unfold Csrf.Check.
    change (Csrf.safeMethod (Method (with_Method r MethodPost))) with false.
    change (ReqHeader (with_Method r MethodPost)) with (ReqHeader r).
    change (Host (with_Method r MethodPost)) with (Host r).
    cbv iota.
    destruct Hcross as [(Hs & Hso & Hn)|(Hs & Ho & Hh)].
    + destruct (String.eqb_spec (Header_Get (ReqHeader r) "Sec-Fetch-Site")
                  EmptyString) as [E|_]; [contradiction|].
      destruct (String.eqb_spec (Header_Get (ReqHeader r) "Sec-Fetch-Site")
                  "same-origin") as [E|_]; [contradiction|].
      destruct (String.eqb_spec (Header_Get (ReqHeader r) "Sec-Fetch-Site")
                  "none") as [E|_]; [contradiction|].
      discriminate.
    + rewrite Hs. change (String.eqb EmptyString EmptyString) with true. cbv iota.
      destruct (String.eqb_spec (Header_Get (ReqHeader r) "Origin")
                  EmptyString) as [E|_]; [contradiction|].
      destruct (url_Host (Header_Get (ReqHeader r) "Origin")) as [host|];
        [|discriminate].
      destruct (String.eqb_spec host (Host r)) as [E|_]; [|discriminate].
      subst host. contradiction Hh. reflexivity.
Qed.

(** ** The properties on concrete requests *)

(** C1 at a tune request for a channel of the catalog. *)
Lemma tune_status_by_tuner_result_witness :
  let r := Samples.post "/api/rpc/tune" Samples.jsonHeaders (Samples.tuneBody "ABC") in
  let s := Samples.tunerWith ["ABC"; "NBC"] in
  let served := Samples.api newResponse r s in
  let result := Tuner.Tune (Api.tuner s) "ABC" in
  snd served = Api.mkWorld (snd result) (Api.calls s ++ [Api.CallTune "ABC"])%list /\
  match fst result with
  | None => fst served = mkResponse ∅ (Some 204) []
  | Some err =>
      StatusCode (fst served) =
        (if Is err Tuner.ErrChannelNotFound then 400 else 500) /\
      StatusCode (fst served) <> 404 /\
      Written (fst served) = [JsonDoc (errorBody err)]
  end.
Proof.
  apply (tune_status_by_tuner_result Samples.csrf_Check Samples.unmarshalStop
           Samples.unmarshalTune Samples.noSocket Samples.noSocket Samples.redirect
           (Samples.post "/api/rpc/tune" Samples.jsonHeaders (Samples.tuneBody "ABC"))
           (Samples.tuneBody "ABC") (Api.mkTuneParams "ABC")
           (Samples.tunerWith ["ABC"; "NBC"])).
  - reflexivity.
  - reflexivity.
  - reflexivity.
  - reflexivity.
  - vm_compute. discriminate.
  - vm_compute. discriminate.
  - reflexivity.
  - reflexivity.
  - discriminate.
Defined.

(** C7 at a tune request whose body is the empty JSON object. *)
Lemma tune_requires_channel_name_witness :
  Samples.api newResponse
    (Samples.post "/api/rpc/tune" Samples.jsonHeaders "{}")
    (Samples.tunerWith ["ABC"; "NBC"]) =
  (mkResponse {[ "Content-Type" := ["application/json"] ]} (Some 400)
     [JsonDoc (JObject [("Error", JString "channel name required")])],
   Samples.tunerWith ["ABC"; "NBC"]).
Proof.
  apply (proj2 (tune_requires_channel_name Samples.csrf_Check Samples.unmarshalStop
           Samples.unmarshalTune Samples.noSocket Samples.noSocket Samples.redirect
           (Samples.post "/api/rpc/tune" Samples.jsonHeaders "{}")
           "{}" Api.zeroTuneParams (Samples.tunerWith ["ABC"; "NBC"]) eq_refl)).
  - reflexivity.
  - reflexivity.
  - reflexivity.
  - reflexivity.
  - vm_compute. discriminate.
  - right. repeat split. discriminate.
Defined.

(** C9 at a stop request with an empty body and no header at all. *)
Lemma empty_body_skips_validation_witness :
  Samples.api newResponse (Samples.post "/api/rpc/stop" ∅ EmptyString)
    (Samples.tunerWith ["ABC"]) =
  (mkResponse ∅ (Some 204) [],
   Api.mkWorld
     (Tuner.publish Tuner.Stopped (Api.tuner (Samples.tunerWith ["ABC"])))
     [Api.CallStop]).
Proof.
  apply (proj2 (empty_body_skips_validation Samples.csrf_Check Samples.unmarshalStop
           Samples.unmarshalTune Samples.noSocket Samples.noSocket Samples.redirect)
           (Samples.post "/api/rpc/stop" ∅ EmptyString) (Samples.tunerWith ["ABC"])).
  - reflexivity.
  - reflexivity.
  - reflexivity.
  - reflexivity.
  - reflexivity.
Defined.

(** C4, as the code has it, at a same-origin POST of 1025 bytes. *)
Lemma rpc_body_limit_behind_gate_witness :
  Samples.api newResponse
    (Samples.post "/api/rpc/tune" Samples.jsonHeaders (Samples.filler 1025 "x"))
    (Samples.tunerWith ["ABC"]) =
  (mkResponse {[ "Content-Type" := ["application/json"] ]} (Some 413)
     [JsonDoc (JObject [("Error", JString "RPC body exceeded maximum size")])],
   Samples.tunerWith ["ABC"]).
Proof.
  apply (rpc_body_limit_behind_gate Samples.csrf_Check Samples.unmarshalStop
           Samples.unmarshalTune Samples.noSocket Samples.noSocket Samples.redirect
           (Samples.post "/api/rpc/tune" Samples.jsonHeaders (Samples.filler 1025 "x"))
           (Samples.filler 1025 "x") None (Samples.tunerWith ["ABC"])).
  - reflexivity.
  - reflexivity.
  - reflexivity.
  - reflexivity.
  - reflexivity.
  - vm_compute. reflexivity.
Defined.

(** C4 as stated fails in two places.  A POST of 1025 bytes to
    /api/rpc/tune that a browser marks as cross-site is stopped by the
    cross-origin gate with 403 and a plain-text body, not with 413.  And a
    POST of 1025 bytes to /api/rpc//stop, a path beneath /api/rpc/ that is
    not clean, is redirected by the mux to /api/rpc/stop before the gate
    and the limit see it, so that it is not answered 413 either. *)
Lemma oversized_post_without_413 :
  (let r :=
     Samples.post "/api/rpc/tune"
       (<[ "Sec-Fetch-Site" := ["cross-site"] ]> Samples.jsonHeaders)
       (Samples.filler 1025 "x") in
   let served := Samples.api newResponse r (Samples.tunerWith ["ABC"]) in
   Method r = MethodPost /\
   Api.HasPrefix (Path r) "/api/rpc/" = true /\
   ReqBody r = Stream (Samples.filler 1025 "x") None /\
   1024 < Len (Samples.filler 1025 "x") /\
   Samples.csrf_Check r <> None /\
   StatusCode (fst served) = 403 /\
   StatusCode (fst served) <> 413 /\
   Written (fst served) <>
     [JsonDoc (JObject [("Error", JString "RPC body exceeded maximum size")])] /\
   snd served = Samples.tunerWith ["ABC"]) /\
  (let r :=
     Samples.post "/api/rpc//stop" Samples.jsonHeaders (Samples.filler 1025 "x") in
   let served := Samples.api newResponse r (Samples.tunerWith ["ABC"]) in
   Method r = MethodPost /\
   Api.HasPrefix (Path r) "/api/rpc/" = true /\
   Samples.csrf_Check r = None /\
   1024 < Len (Samples.filler 1025 "x") /\
   cleanPath (Path r) = "/api/rpc/stop" /\
   fst served = Samples.redirect "/api/rpc/stop" newResponse r /\
   StatusCode (fst served) <> 413 /\
   Written (fst served) = [] /\
   snd served = Samples.tunerWith ["ABC"]).
Proof.
  vm_compute. repeat split; discriminate.
Qed.

(** A POST that carries neither a Sec-Fetch-Site nor an Origin header, as
    a client that is not a browser sends it, passes the library's check. *)
Lemma plain_post_is_admitted (url_Host : string -> option string) (r : Request) :
  ReqHeader r !! "Sec-Fetch-Site" = None ->
  ReqHeader r !! "Origin" = None ->
  Csrf.Check url_Host r = None.
Proof.
  intros Hsite Horigin. unfold Csrf.Check.
  rewrite (Header_Get_missing _ _ Hsite), (Header_Get_missing _ _ Horigin).
  destruct (Csrf.safeMethod (Method r)); reflexivity.
Qed.

(** C8 fails on an empty catalog: the document written is [null], not an
    array. *)
Theorem channels_of_empty_catalog_is_null :
  Samples.api newResponse (Samples.get "/api/config/channels" ∅)
    (Samples.tunerWith []) =
  (mkResponse {[ "Content-Type" := ["application/json"] ]} (Some 200)
     [JsonDoc JNull], Samples.tunerWith []).
Proof. vm_compute. reflexivity. Qed.

(** The library's check lets every GET through, so the upgrader would let
    a cross-site upgrade through if it did not replace the method; with the
    replacement the cross-site upgrade is refused and the same-origin one
    is let through.  The upgrader of the earlier revision let both
    through. *)
Example websocket_upgrade_cross_site :
  let upgrade site :=
    Samples.get "/api/socket/tuner-status" {[ "Sec-Fetch-Site" := [site] ]} in
  Samples.csrf_Check (upgrade "cross-site") = None /\
  Api.websocketUpgrader_CheckOrigin Samples.csrf_Check (upgrade "cross-site") = false /\
  Api.websocketUpgrader_CheckOrigin Samples.csrf_Check (upgrade "same-origin") = true /\
  Api.legacy_CheckOrigin (upgrade "cross-site") = true.
Proof. vm_compute. repeat split. Qed.

(** C3 at a same-origin upgrade request on /api/socket/tuner-status: it
    is upgraded and the session of the route starts. *)
Lemma websocket_upgrade_gated_witness :
  let r := Samples.get "/api/socket/tuner-status" (Samples.upgradeHeaders "same-origin") in
  let s := Samples.tunerWith ["ABC"] in
  Samples.socketApi newResponse r s =
  (mkResponse ∅ (Some 101) [], Samples.session r s).
Proof.
  refine (proj1 (proj2 (websocket_upgrade_gated Samples.csrf_Check
            Samples.unmarshalStop Samples.unmarshalTune Samples.redirect
            Samples.handshakeError Samples.validChallengeKey Samples.StatusText
            Samples.session Samples.session
            (Samples.get "/api/socket/tuner-status"
               (Samples.upgradeHeaders "same-origin"))
            (Samples.tunerWith ["ABC"]) _ _)) _).
  - right. reflexivity.
  - split; reflexivity.
  - reflexivity.
Defined.

(** The same request sent from another site is answered 403 on both
    socket routes, with the upgrader's version header and the text of
    [http.Error]. *)
Example websocket_route_cross_site :
  let answer path :=
    fst (Samples.socketApi newResponse
           (Samples.get path (Samples.upgradeHeaders "cross-site"))
           (Samples.tunerWith ["ABC"])) in
  let refused :=
    mkResponse
      (<[ "Sec-Websocket-Version" := ["13"] ]>
       (<[ "X-Content-Type-Options" := ["nosniff"] ]>
        {[ "Content-Type" := ["text/plain; charset=utf-8"] ]}))
      (Some 403) [Text ("Forbidden" ++ String "010"%char EmptyString)] in
  answer "/api/socket/tuner-status" = refused /\
  answer "/api/socket/webrtc-peer" = refused.
Proof. vm_compute. split; reflexivity. Qed.

(** ** Shutdown *)

(** C2, as the code has it.  When the channels are loaded and an interrupt
    or SIGTERM arrives, [main] logs, calls [server.Shutdown] with a context
    that expires after 5 seconds (the server stops accepting connections
    and waits that long at most for the handlers in flight), cancels the
    context and returns, so the process exits with code 0; it makes no
    call to the tuner's [Stop]. *)
Theorem shutdown_on_signal (flags : Main.Flags) (embedded : bool) (sig : Main.Signal) :
  let run := Main.main flags None embedded (Main.Signalled sig) in
  snd run = 0 /\
  (exists startup : list Main.Effect,
     fst run =
       (startup ++
        [Main.LogInfo "Shutting down"; Main.Shutdown 5000000000; Main.Cancel])%list /\
     In (Main.ListenAndServe (Main.flagAddr flags)) startup /\
     In (Main.Notify [Main.Interrupt; Main.SIGTERM]) startup /\
     ~ In Main.TunerStop startup) /\
  ~ In Main.TunerStop (fst run).
Proof.
  unfold Main.main. cbn [fst snd].
  set (assets :=
         if negb (String.eqb (Main.flagAssets flags) EmptyString)
         then [Main.HttpHandle "/"]
         else if embedded then [Main.HttpHandle "/"] else []).
  assert (Hassets : ~ In Main.TunerStop assets).
  { subst assets.
    destruct (negb (String.eqb (Main.flagAssets flags) EmptyString)), embedded;
      cbn [In]; intuition discriminate. }
  split; [reflexivity|]. split.
  - eexists. split; [reflexivity|].
    rewrite !in_app_iff. cbn [In].
    repeat split; try (intuition reflexivity); intuition discriminate.
  - rewrite !in_app_iff. cbn [In]. intuition discriminate.
Qed.

(** C2 as stated fails: after SIGTERM the effects of [main] hold the
    shutdown of the server, but no call to the tuner's [Stop] follows it
    (nor precedes it). *)
Lemma sigterm_never_stops_tuner :
  let run :=
    Main.main (Main.mkFlags ":9200" "/etc/hypcast/channels.conf" EmptyString "default")
      None true (Main.Signalled Main.SIGTERM) in
  fst run =
    [Main.NewTuner "default"; Main.HttpHandle "/api/"; Main.HttpHandle "/";
     Main.LogInfo "Starting Hypcast server"; Main.ListenAndServe ":9200";
     Main.Notify [Main.Interrupt; Main.SIGTERM];
     Main.LogInfo "Shutting down"; Main.Shutdown 5000000000; Main.Cancel] /\
  ~ (exists before after : list Main.Effect,
       fst run = (before ++ Main.Shutdown 5000000000 :: after)%list /\
       In Main.TunerStop after).
Proof.
  split; [reflexivity|].
  intros (before & after & Heq & Hin).
  assert (Hall : In Main.TunerStop (fst (Main.main
            (Main.mkFlags ":9200" "/etc/hypcast/channels.conf" EmptyString "default")
            None true (Main.Signalled Main.SIGTERM)))).
  { cbv zeta in Heq. rewrite Heq. apply in_or_app. right. right. exact Hin. }
  vm_compute in Hall. intuition discriminate.
Qed.

(** ** The two-stage handler and the single-stage revisions *)

Lemma length_substring_0 (n : nat) (s : string) :
  (n <= String.length s)%nat -> String.length (substring 0 n s) = n.
Proof.
  revert s. induction n as [|n IH]; intros s Hle.
  - destruct s; reflexivity.
  - destruct s as [|c s]; cbn [String.length] in Hle; [lia|].
    cbn [substring String.length]. rewrite IH; [reflexivity|lia].
Qed.

Lemma Len_substring_0 (n : Z) (s : string) :
  0 <= n <= Len s -> Len (substring 0 (Z.to_nat n) s) = n.
Proof.
  unfold Len. intros Hn. rewrite length_substring_0; lia.
Qed.

Lemma int64_add_exact (a b : Z) :
  - 2^63 <= a + b < 2^63 -> int64_add a b = a + b.
Proof.
  intros Hr. unfold int64_add, int64_wrap. rewrite Z.mod_small; lia.
Qed.

Section Revisions.
Context {T S : Type}.
Variable zero : T.
Variable unmarshal : string -> option T.
Variable h : HandlerFunc (T:=T) (S:=S).

(** The revision that reads through [io.LimitReader], on a POST whose body
    reads without error, for a limit whose successor does not overflow. *)
Lemma limit_reader_revision w r data limit s :
  0 <= limit < MaxInt64 ->
  Method r = MethodPost ->
  ReqBody r = Stream data None ->
  RpcLimitReader.ServeHTTP zero unmarshal h limit w r s =
  Checks.reply h (Checks.verdict zero unmarshal limit r data) w
    (with_Body r (drain (ReqBody r))) s.
Proof.
  intros Hl Hm Hb. unfold MaxInt64 in Hl.
  unfold RpcLimitReader.ServeHTTP, RpcLimitReader.readRPCParams.
  rewrite Hm. cbn [negb String.eqb MethodPost Ascii.eqb Bool.eqb].
  change (negb (MethodPost =? MethodPost)%string) with false. cbv iota.
  rewrite int64_add_exact by lia.
  rewrite Hb. unfold LimitReader, Checks.verdict. cbn [ReadFrom].
  assert ((limit + 1 <=? 0) = false) as -> by lia.
  destruct (Z.leb_spec (limit + 1) (Len data)) as [Hbig|Hsmall].
  - cbn [ReadFrom]. rewrite Len_substring_0 by lia.
    assert ((limit + 1 =? 0) = false) as -> by lia.
    assert ((limit <? limit + 1) = true) as -> by lia.
    assert ((limit <? Len data) = true) as -> by lia.
    reflexivity.
  - cbn [ReadFrom].
    assert ((limit <? Len data) = false) as -> by lia.
    destruct (Len data =? 0).
    + unfold Checks.reply, invoke.
      destruct (h _ zero s) as [[code body] s']. destruct body; reflexivity.
    + destruct (badContentType r); [reflexivity|].
      destruct (unmarshal data) as [params|]; [|reflexivity].
      unfold Checks.reply, invoke.
      destruct (h _ params s) as [[code body] s']. destruct body; reflexivity.
Qed.

(** The revision that reads through [http.MaxBytesReader] itself, on a
    POST whose body reads without error, for a limit of at least one
    byte. *)
Lemma max_bytes_revision w r data limit s :
  1 <= limit ->
  Method r = MethodPost ->
  ReqBody r = Stream data None ->
  RpcMaxBytes.ServeHTTP zero unmarshal h limit w r s =
  Checks.reply h (Checks.verdict zero unmarshal limit r data) w
    (with_Body r (drain (ReqBody r))) s.
Proof.
  intros Hl Hm Hb. unfold RpcMaxBytes.ServeHTTP.
  rewrite (respondIfBadMethod_post _ _ Hm), Hb.
  unfold Checks.verdict.
  destruct (Z.ltb_spec limit (Len data)) as [Hbig|Hsmall].
  - rewrite MaxBytesReader_beyond by lia.
    rewrite Len_substring_0 by lia.
    assert ((0 <? Z.max limit 0) = true) as -> by lia. reflexivity.
  - rewrite MaxBytesReader_within by lia.
    destruct (Z.eqb_spec (Len data) 0) as [E|E].
    + rewrite E. reflexivity.
    + assert ((0 <? Len data) = true) as -> by (pose proof (Len_nonneg data); lia).
      destruct (badContentType r); [reflexivity|].
      destruct (unmarshal data); reflexivity.
Qed.

(** C10, as the code has it.  For a limit [L] of at least one byte and
    below the largest [int64], a handler function that does not read
    [r.Body] itself, and a POST whose body reads without error, the
    two-stage handler (with [Handler.ServeHTTP] or with [Handle] behind the
    limit) gives the response and the state that each single-stage revision
    gives under the limit [L]: 413 when the body is longer than [L], else
    the handler's result on the zero value for an empty body, else 415 for
    a wrong Content-Type, else 400 for a body that does not decode, else
    the handler's result on the decoded parameters. *)
Theorem two_stage_matches_single_stage
    (L : Z) (w : ResponseWriter) (r : Request) (data : string) (s : S) :
  1 <= L < MaxInt64 ->
  Checks.ignoresBody h ->
  Method r = MethodPost ->
  ReqBody r = Stream data None ->
  let current := WithLimitedBodyBuffer L (ServeHTTP zero unmarshal h) w r s in
  current = RpcLimitReader.ServeHTTP zero unmarshal h L w r s /\
  current = RpcMaxBytes.ServeHTTP zero unmarshal h L w r s /\
  current = WithLimitedBodyBuffer L (Handle zero unmarshal h) w r s /\
  current = Checks.reply h (Checks.verdict zero unmarshal L r data) w r s.
Proof.
  intros HL Hign Hm Hb current. subst current.
  assert (Hreply : forall b,
    Checks.reply h (Checks.verdict zero unmarshal L r data) w (with_Body r b) s =
    Checks.reply h (Checks.verdict zero unmarshal L r data) w r s).
  { intros b. destruct (Checks.verdict zero unmarshal L r data); try reflexivity.
    unfold Checks.reply, invoke. rewrite Hign. reflexivity. }
  rewrite (two_stage zero unmarshal h w r data L s Hm Hb).
  replace (Z.max L 0) with L by lia.
  rewrite (limit_reader_revision w r data L s) by (auto; lia).
  rewrite (max_bytes_revision w r data L s) by (auto; lia).
  rewrite !Hreply. repeat split; try reflexivity.
  destruct (Z.ltb_spec (Z.max L 0) (Len data)) as [Hbig|Hsmall].
  - rewrite (limited_too_large _ w r data None L s Hm Hb Hbig).
    unfold Checks.verdict.
    assert ((L <? Len data) = true) as -> by lia. reflexivity.
  - rewrite (limited_within _ w r data L s Hm Hb Hsmall).
    rewrite (Handle_buffered zero unmarshal h w (with_Body r (bufferedBody data)) data s eq_refl).
    rewrite (ServeHTTP_buffered zero unmarshal h w (with_Body r (bufferedBody data)) data s Hm eq_refl).
    unfold Checks.verdict at 2. rewrite Z.ltb_irrefl.
    unfold Checks.verdict.
    assert ((L <? Len data) = false) as -> by lia.
    change (badContentType (with_Body r (bufferedBody data))) with (badContentType r).
    destruct (Len data =? 0);
      [unfold Checks.reply, invoke; rewrite Hign; reflexivity|].
    destruct (badContentType r); [reflexivity|].
    destruct (unmarshal data); [|reflexivity].
    unfold Checks.reply, invoke. rewrite Hign. reflexivity.
Qed.

End Revisions.

(** C10, as the code has it, at a decodable body under the limit 32. *)
Lemma two_stage_matches_single_stage_witness :
  let r := Samples.post "/" Samples.jsonHeaders "{}" in
  let current :=
    WithLimitedBodyBuffer 32
      (ServeHTTP Api.zeroTuneParams Samples.unmarshalTune Samples.accept)
      newResponse r tt in
  current =
    RpcLimitReader.ServeHTTP Api.zeroTuneParams Samples.unmarshalTune
      Samples.accept 32 newResponse r tt /\
  current =
    RpcMaxBytes.ServeHTTP Api.zeroTuneParams Samples.unmarshalTune
      Samples.accept 32 newResponse r tt /\
  current =
    WithLimitedBodyBuffer 32
      (Handle Api.zeroTuneParams Samples.unmarshalTune Samples.accept)
      newResponse r tt /\
  current =
    Checks.reply Samples.accept
      (Checks.verdict Api.zeroTuneParams Samples.unmarshalTune 32 r "{}")
      newResponse r tt.
Proof.
  apply (two_stage_matches_single_stage Api.zeroTuneParams Samples.unmarshalTune
           Samples.accept 32 newResponse
           (Samples.post "/" Samples.jsonHeaders "{}") "{}" tt).
  - unfold MaxInt64. lia.
  - intros r b params s. reflexivity.
  - reflexivity.
  - reflexivity.
Defined.

(** C10 as stated fails in four places.  Under the limit 0 the
    [http.MaxBytesReader] revision answers a one-byte body with 500 and the
    reader's own message where the two-stage handler answers 413.  Under
    the largest [int64] the [io.LimitReader] revision reads nothing and
    calls the handler function where the two-stage handler answers an
    undecodable body with 400.  A handler function that reads [r.Body]
    finds the whole body behind the two-stage handler and nothing behind
    either single-stage revision.  And when the read of the body fails
    before any byte has arrived, the two-stage handler answers with
    "unable to read RPC body" where the [http.MaxBytesReader] revision
    sends the message of the read error itself. *)
Lemma single_stage_revisions_differ :
  let zero := Api.zeroTuneParams in
  let um := Samples.unmarshalTune in
  let reply (served : ResponseWriter * unit) := (Code (fst served), Written (fst served)) in
  (let r := Samples.post "/" Samples.jsonHeaders "x" in
   reply (WithLimitedBodyBuffer 0 (ServeHTTP zero um Samples.accept) newResponse r tt) =
     (Some 413, [JsonDoc (JObject [("Error", JString "RPC body exceeded maximum size")])]) /\
   reply (RpcMaxBytes.ServeHTTP zero um Samples.accept 0 newResponse r tt) =
     (Some 500, [JsonDoc (JObject [("Error", JString "http: request body too large")])])) /\
  (let r := Samples.post "/" Samples.jsonHeaders "{{{" in
   reply (WithLimitedBodyBuffer MaxInt64 (ServeHTTP zero um Samples.accept) newResponse r tt) =
     (Some 400, [JsonDoc (JObject [("Error", JString "unable to decode RPC body")])]) /\
   reply (RpcLimitReader.ServeHTTP zero um Samples.accept MaxInt64 newResponse r tt) =
     (Some 204, [])) /\
  (let r := Samples.post "/" Samples.jsonHeaders "{}" in
   reply (WithLimitedBodyBuffer 1024 (ServeHTTP zero um Samples.bodyLength) newResponse r tt) =
     (Some 202, []) /\
   reply (RpcLimitReader.ServeHTTP zero um Samples.bodyLength 1024 newResponse r tt) =
     (Some 200, []) /\
   reply (RpcMaxBytes.ServeHTTP zero um Samples.bodyLength 1024 newResponse r tt) =
     (Some 200, [])) /\
  (let r :=
     mkRequest MethodPost "/" "tv.example" Samples.jsonHeaders
       (Stream EmptyString (Some (ErrLeaf "io.ErrUnexpectedEOF" "unexpected EOF"))) in
   reply (WithLimitedBodyBuffer 1024 (ServeHTTP zero um Samples.accept) newResponse r tt) =
     (Some 500, [JsonDoc (JObject [("Error", JString "unable to read RPC body")])]) /\
   reply (RpcMaxBytes.ServeHTTP zero um Samples.accept 1024 newResponse r tt) =
     (Some 500, [JsonDoc (JObject [("Error", JString "unexpected EOF")])])).
Proof. vm_compute. repeat split. Qed.

(** On a body that was not buffered, [Handle] answers a failed read with
    500, while [Handler.ServeHTTP] of rpc.go forgets the read error as soon
    as some bytes have arrived and decodes them. *)
Example unbuffered_read_error :
  let r :=
    mkRequest MethodPost "/" "tv.example" Samples.jsonHeaders
      (Stream "{}" (Some (ErrLeaf "io.ErrUnexpectedEOF" "unexpected EOF"))) in
  Code (fst (Handle Api.zeroTuneParams Samples.unmarshalTune Samples.accept
               newResponse r tt)) = Some 500 /\
  Code (fst (ServeHTTP Api.zeroTuneParams Samples.unmarshalTune Samples.accept
               newResponse r tt)) = Some 204.
Proof. vm_compute. split; reflexivity. Qed.

(** * Further properties of the framework *)

Section FrameworkTotal.
Context {T S : Type}.
Variable zero : T.
Variable unmarshal : string -> option T.
Variable h : HandlerFunc (T:=T) (S:=S).

(** Every way in which the two-stage handler can answer. *)
Lemma two_stage_cases (limit : Z) (w : ResponseWriter) (r : Request) (s : S) :
  let served := WithLimitedBodyBuffer limit (ServeHTTP zero unmarshal h) w r s in
  served = (WriteHeader StatusMethodNotAllowed (AddHeader "Allow" MethodPost w), s) \/
  (exists err,
     In err [errBodyTooLarge; errReadingBody; errInvalidBodyType; errInvalidBody] /\
     served = (respondError w err, s)) \/
  (exists r' params, served = invoke h w r' params s).
Proof.
  cbv zeta.
  destruct (String.eqb_spec (Method r) MethodPost) as [Hm|Hm].
  2:{ left. unfold WithLimitedBodyBuffer.
      rewrite (respondIfBadMethod_other _ _ Hm). reflexivity. }
  right. unfold WithLimitedBodyBuffer. rewrite (respondIfBadMethod_post _ _ Hm).
  destruct (ReadFrom (MaxBytesReader (ReqBody r) limit)) as [rbody [err|]].
  - left. destruct err; eexists; (split; [|reflexivity]); cbn [In]; auto.
  - rewrite (ServeHTTP_buffered zero unmarshal h w
               (with_Body r (bufferedBody rbody)) rbody s Hm eq_refl).
    destruct (Checks.verdict zero unmarshal (Len rbody)
                (with_Body r (bufferedBody rbody)) rbody) eqn:Hv;
      cbn [Checks.reply].
    + left. eexists; (split; [|reflexivity]); cbn [In]; auto.
    + left. eexists; (split; [|reflexivity]); cbn [In]; auto.
    + left. eexists; (split; [|reflexivity]); cbn [In]; auto.
    + right. eauto.
Qed.

End FrameworkTotal.

(** X1. Whatever the request is (any method, any body, readable or not),
    the two-stage handler calls the handler function at most once: either
    it does not call it, leaves the state alone and answers 405, 413, 500,
    415 or 400, or it calls it exactly once and the response is made from
    what that call returned. *)
Theorem handler_called_at_most_once
    {T S : Type} (zero : T) (unmarshal : string -> option T)
    (h : HandlerFunc (T:=T) (S:=S)) (limit : Z) (r : Request)
    (s : S) (log : list T) :
  let served :=
    WithLimitedBodyBuffer limit (ServeHTTP zero unmarshal (spy h))
      newResponse r (s, log) in
  (snd served = (s, log) /\
   In (StatusCode (fst served)) [405; 413; 500; 415; 400]) \/
  (exists r' params,
     snd served = (snd (h r' params s), (log ++ [params])%list) /\
     fst served =
       respond newResponse (fst (fst (h r' params s))) (snd (fst (h r' params s)))).
Proof.
  cbv zeta.
  destruct (two_stage_cases zero unmarshal (spy h) limit newResponse r (s, log))
    as [E|[(err & Hin & E)|(r' & params & E)]]; rewrite E.
  - left. split; [reflexivity|]. cbn. auto.
  - left. split; [reflexivity|].
    cbn [In] in Hin. destruct Hin as [<-|[<-|[<-|[<-|[]]]]]; cbn; auto 6.
  - right. exists r', params. unfold invoke, spy.
    destruct (h r' params s) as [[code body] s']. split; reflexivity.
Qed.

(** What [respond] can leave as body on a fresh writer. *)
Lemma respond_body (code : Z) (body : any) :
  let w := respond newResponse code body in
  Written w = [] \/
  (exists v status,
     Written w = [JsonDoc v] /\ Code w = Some status /\
     bodyAllowedForStatus status = true /\
     RespHeader w !! "Content-Type" = Some ["application/json"]).
Proof.
  cbv zeta. destruct body as [|e|v|]; unfold respond, Encode, Write, WriteHeader;
    cbn -[validCode informational bodyAllowedForStatus];
    destruct (validCode code); cbn -[informational bodyAllowedForStatus];
    try (left; reflexivity);
    destruct (informational code); cbn -[bodyAllowedForStatus];
    try (left; reflexivity);
    try (right; eexists; exists 200; repeat split; reflexivity);
    destruct (bodyAllowedForStatus code) eqn:Hb; cbn;
    try (left; reflexivity);
    right; eexists; exists code; repeat split; try reflexivity; exact Hb.
Qed.

(** X2. Whatever the request and the handler function are, the response
    of the two-stage handler has either no body, or exactly one JSON
    document, and then it has a final status code that allows a body and
    the header Content-Type: application/json. *)
Theorem body_is_one_typed_json_document
    {T S : Type} (zero : T) (unmarshal : string -> option T)
    (h : HandlerFunc (T:=T) (S:=S)) (limit : Z) (r : Request) (s : S) :
  let w := fst (WithLimitedBodyBuffer limit (ServeHTTP zero unmarshal h)
                  newResponse r s) in
  Written w = [] \/
  (exists v status,
     Written w = [JsonDoc v] /\ Code w = Some status /\
     bodyAllowedForStatus status = true /\
     RespHeader w !! "Content-Type" = Some ["application/json"]).
Proof.
  cbv zeta.
  destruct (two_stage_cases zero unmarshal h limit newResponse r s)
    as [E|[(err & Hin & E)|(r' & params & E)]]; rewrite E.
  - left. reflexivity.
  - right. cbn [In] in Hin.
    destruct Hin as [<-|[<-|[<-|[<-|[]]]]];
      eexists; eexists; repeat split; reflexivity.
  - unfold invoke. destruct (h r' params s) as [[code body] s'].
    apply respond_body.
Qed.

(** X3. Behind the limit, a body that fits but whose read fails is
    answered 500 with "unable to read RPC body", unless the failure is
    itself a [MaxBytesError], which is answered 413 like an oversized body;
    in both cases the handler behind the limit is not served. *)
Theorem limited_read_failure
    {S : Type} (handle : Handler (S:=S)) (limit : Z) (r : Request)
    (data : string) (e : error) (s : S) (n : nat) :
  Method r = MethodPost ->
  ReqBody r = Stream data (Some e) ->
  Len data <= Z.max limit 0 ->
  WithLimitedBodyBuffer limit (counted handle) newResponse r (s, n) =
  (respondError newResponse
     match e with
     | ErrMaxBytes _ => errBodyTooLarge
     | _ => errReadingBody
     end, (s, n)).
Proof.
  intros Hm Hb Hle. unfold WithLimitedBodyBuffer.
  rewrite (respondIfBadMethod_post _ _ Hm), Hb, (MaxBytesReader_within _ _ _ Hle).
  destruct e; reflexivity.
Qed.

Lemma limited_read_failure_witness :
  WithLimitedBodyBuffer 32 (counted (Handle tt Samples.unmarshalStop Samples.accept))
    newResponse
    (mkRequest MethodPost "/" "example.com" Samples.jsonHeaders
       (Stream "{}" (Some (ErrLeaf "io.ErrUnexpectedEOF" "unexpected EOF"))))
    (tt, O) =
  (respondError newResponse errReadingBody, (tt, O)).
Proof.
  apply (limited_read_failure (Handle tt Samples.unmarshalStop Samples.accept) 32
           (mkRequest MethodPost "/" "example.com" Samples.jsonHeaders
              (Stream "{}" (Some (ErrLeaf "io.ErrUnexpectedEOF" "unexpected EOF"))))
           "{}" (ErrLeaf "io.ErrUnexpectedEOF" "unexpected EOF") tt O).
  - reflexivity.
  - reflexivity.
  - vm_compute. discriminate.
Defined.

(** X4. Two limits in a row act as the smaller one: for a request whose
    body reads without error, [WithLimitedBodyBuffer L1] around
    [WithLimitedBodyBuffer L2] around a handler is
    [WithLimitedBodyBuffer (min L1 L2)] around that handler. *)
Theorem nested_limits_take_the_smaller
    {S : Type} (handle : Handler (S:=S)) (L1 L2 : Z) (w : ResponseWriter)
    (r : Request) (s : S) :
  snd (ReadFrom (ReqBody r)) = None ->
  WithLimitedBodyBuffer L1 (WithLimitedBodyBuffer L2 handle) w r s =
  WithLimitedBodyBuffer (Z.min L1 L2) handle w r s.
Proof.
  intros Herr.
  destruct (String.eqb_spec (Method r) MethodPost) as [Hm|Hm].
  2:{ unfold WithLimitedBodyBuffer at 1 3.
      rewrite (respondIfBadMethod_other _ _ Hm). reflexivity. }
  assert (Hread : exists data, forall limit,
            ReadFrom (MaxBytesReader (ReqBody r) limit) =
            if Z.max limit 0 <? Len data
            then (substring 0 (Z.to_nat (Z.max limit 0)) data,
                  Some (ErrMaxBytes (Z.max limit 0)))
            else (data, None)).
  { unfold MaxBytesReader.
    destruct (ReqBody r) as [data err|data e|buf]; cbn in Herr |- *.
    - subst err. exists data. intros limit. destruct (_ <? _); reflexivity.
    - discriminate.
    - exists buf. intros limit. destruct (_ <? _); reflexivity. }
  destruct Hread as [data Hread].
  unfold WithLimitedBodyBuffer at 1 3.
  rewrite (respondIfBadMethod_post _ _ Hm), !Hread.
  destruct (Z.ltb_spec (Z.max L1 0) (Len data)) as [H1|H1].
  - assert ((Z.max (Z.min L1 L2) 0 <? Len data) = true) as -> by lia. reflexivity.
  - unfold WithLimitedBodyBuffer.
    rewrite (respondIfBadMethod_post w (with_Body r (bufferedBody data)) Hm).
    unfold MaxBytesReader. cbn [ReqBody with_Body ReadFrom].
    destruct (Z.ltb_spec (Z.max L2 0) (Len data)) as [H2|H2].
    + assert ((Z.max (Z.min L1 L2) 0 <? Len data) = true) as -> by lia. reflexivity.
    + assert ((Z.max (Z.min L1 L2) 0 <? Len data) = false) as -> by lia. reflexivity.
Qed.

Lemma nested_limits_take_the_smaller_witness :
  let r := Samples.post "/" Samples.jsonHeaders (Samples.filler 40 "x") in
  WithLimitedBodyBuffer 64
    (WithLimitedBodyBuffer 32 (Handle tt Samples.unmarshalStop Samples.accept))
    newResponse r tt =
  WithLimitedBodyBuffer (Z.min 64 32)
    (Handle tt Samples.unmarshalStop Samples.accept) newResponse r tt.
Proof.
  apply (nested_limits_take_the_smaller
           (Handle tt Samples.unmarshalStop Samples.accept) 64 32 newResponse
           (Samples.post "/" Samples.jsonHeaders (Samples.filler 40 "x")) tt).
  reflexivity.
Defined.

Section Unbuffered.
Context {T S : Type}.
Variable zero : T.
Variable unmarshal : string -> option T.
Variable h : HandlerFunc (T:=T) (S:=S).

(** X5. [Handle] without a limit in front of it accepts a body of any
    size: a POST whose read fails is answered 500 with "unable to read RPC
    body" whatever arrived, and one that reads to the end goes through the
    checks with no size check (empty body: zero value; else 415, 400, or
    the call on the decoded parameters), the handler function seeing the
    request with its body consumed. *)
Theorem Handle_unbuffered (w : ResponseWriter) (r : Request) (data : string)
    (err : option error) (s : S) :
  Method r = MethodPost ->
  ReqBody r = Stream data err ->
  Handle zero unmarshal h w r s =
  match err with
  | Some _ => (respondError w errReadingBody, s)
  | None =>
      Checks.reply h (Checks.verdict zero unmarshal (Len data) r data) w
        (with_Body r (Stream EmptyString None)) s
  end.
Proof.
  intros Hm Hb. unfold Handle.
  rewrite (respondIfBadMethod_post _ _ Hm), Hb. cbn [ReadFrom drain].
  destruct err as [e|]; [reflexivity|].
  unfold Checks.verdict. rewrite Z.ltb_irrefl.
  destruct (Z.eqb_spec (Len data) 0) as [E|E].
  - rewrite E. reflexivity.
  - assert ((0 <? Len data) = true) as -> by (pose proof (Len_nonneg data); lia).
    change (badContentType (with_Body r (Stream EmptyString None)))
      with (badContentType r).
    destruct (badContentType r); [reflexivity|].
    destruct (unmarshal data); reflexivity.
Qed.

(** X6. [Handler.ServeHTTP] of rpc.go without a limit in front of it
    treats a failed read differently: when no byte arrived it answers 500
    with "unable to read RPC body", but when some bytes arrived the read
    error is dropped and those bytes go through the Content-Type check and
    the decoder as if the read had ended well. *)
Theorem ServeHTTP_unbuffered (w : ResponseWriter) (r : Request) (data : string)
    (err : option error) (s : S) :
  Method r = MethodPost ->
  ReqBody r = Stream data err ->
  ServeHTTP zero unmarshal h w r s =
  if Len data =? 0 then
    match err with
    | Some _ => (respondError w errReadingBody, s)
    | None => invoke h w (with_Body r (Stream EmptyString None)) zero s
    end
  else
    Checks.reply h (Checks.verdict zero unmarshal (Len data) r data) w
      (with_Body r (Stream EmptyString err)) s.
Proof.
  intros Hm Hb. unfold ServeHTTP.
  rewrite (respondIfBadMethod_post _ _ Hm), Hb. cbn [ReadFrom drain].
  unfold Checks.verdict. rewrite Z.ltb_irrefl.
  change (badContentType (with_Body r (Stream EmptyString err)))
    with (badContentType r).
  destruct (Z.eqb_spec (Len data) 0) as [E|E].
  - rewrite E. destruct err; reflexivity.
  - assert ((0 <? Len data) = true) as -> by (pose proof (Len_nonneg data); lia).
    destruct (badContentType r); [destruct err; reflexivity|].
    destruct (unmarshal data); destruct err; reflexivity.
Qed.

End Unbuffered.

Lemma Handle_unbuffered_witness :
  Handle tt Samples.unmarshalStop Samples.accept newResponse
    (mkRequest MethodPost "/" "example.com" Samples.jsonHeaders
       (Stream "{}" (Some (ErrLeaf "io.ErrUnexpectedEOF" "unexpected EOF")))) tt =
  (respondError newResponse errReadingBody, tt).
Proof.
  apply (Handle_unbuffered tt Samples.unmarshalStop Samples.accept newResponse
           (mkRequest MethodPost "/" "example.com" Samples.jsonHeaders
              (Stream "{}" (Some (ErrLeaf "io.ErrUnexpectedEOF" "unexpected EOF"))))
           "{}" (Some (ErrLeaf "io.ErrUnexpectedEOF" "unexpected EOF")) tt).
  - reflexivity.
  - reflexivity.
Defined.

Lemma ServeHTTP_unbuffered_witness :
  ServeHTTP tt Samples.unmarshalStop Samples.accept newResponse
    (mkRequest MethodPost "/" "example.com" Samples.jsonHeaders
       (Stream "{}" (Some (ErrLeaf "io.ErrUnexpectedEOF" "unexpected EOF")))) tt =
  (mkResponse ∅ (Some 204) [], tt).
Proof.
  apply (ServeHTTP_unbuffered tt Samples.unmarshalStop Samples.accept newResponse
           (mkRequest MethodPost "/" "example.com" Samples.jsonHeaders
              (Stream "{}" (Some (ErrLeaf "io.ErrUnexpectedEOF" "unexpected EOF"))))
           "{}" (Some (ErrLeaf "io.ErrUnexpectedEOF" "unexpected EOF")) tt).
  - reflexivity.
  - reflexivity.
Defined.

(** * Further properties of the API handler *)

(** What a handler made by [Handle] can do to the state: nothing, or one
    call of the handler function. *)
Lemma Handle_effect {T S : Type} (zero : T) (unmarshal : string -> option T)
    (h : HandlerFunc (T:=T) (S:=S)) (w : ResponseWriter) (r : Request) (s : S) :
  snd (Handle zero unmarshal h w r s) = s \/
  (Method r = MethodPost /\
   exists r' params, Handle zero unmarshal h w r s = invoke h w r' params s).
Proof.
  destruct (String.eqb_spec (Method r) MethodPost) as [Hm|Hm].
  2:{ left. unfold Handle. rewrite (respondIfBadMethod_other _ _ Hm). reflexivity. }
  unfold Handle. rewrite (respondIfBadMethod_post _ _ Hm).
  assert (Hdec : forall rbody r0,
    snd (if 0 <? Len rbody
         then if badContentType r0 then (respondError w errInvalidBodyType, s)
              else match unmarshal rbody with
                   | Some params => invoke h w r0 params s
                   | None => (respondError w errInvalidBody, s)
                   end
         else invoke h w r0 zero s) = s \/
    exists r' params,
      (if 0 <? Len rbody
       then if badContentType r0 then (respondError w errInvalidBodyType, s)
            else match unmarshal rbody with
                 | Some params => invoke h w r0 params s
                 | None => (respondError w errInvalidBody, s)
                 end
       else invoke h w r0 zero s) = invoke h w r' params s).
  { intros rbody r0. destruct (0 <? Len rbody); [|right; eauto].
    destruct (badContentType r0); [left; reflexivity|].
    destruct (unmarshal rbody); [right; eauto|left; reflexivity]. }
  destruct (ReqBody r) as [data [e|]|data e|buf]; cbn [ReadFrom].
  - left. reflexivity.
  - destruct (Hdec data (with_Body r (drain (Stream data None)))) as [E|E]; auto.
  - left. reflexivity.
  - destruct (Hdec buf r) as [E|E]; auto.
Qed.

(** What [WithLimitedBodyBuffer] can do: answer by itself, or hand a POST
    with the same path on. *)
Lemma limited_effect {S : Type} (handle : Handler (S:=S)) (limit : Z)
    (w : ResponseWriter) (r : Request) (s : S) :
  snd (WithLimitedBodyBuffer limit handle w r s) = s \/
  (Method r = MethodPost /\
   exists b, WithLimitedBodyBuffer limit handle w r s = handle w (with_Body r b) s).
Proof.
  destruct (String.eqb_spec (Method r) MethodPost) as [Hm|Hm].
  2:{ left. unfold WithLimitedBodyBuffer.
      rewrite (respondIfBadMethod_other _ _ Hm). reflexivity. }
  unfold WithLimitedBodyBuffer. rewrite (respondIfBadMethod_post _ _ Hm).
  destruct (ReadFrom (MaxBytesReader (ReqBody r) limit)) as [rbody [e|]].
  - left. destruct e; reflexivity.
  - right. eauto.
Qed.

Section ApiEffects.
Context {Tn : Type} `{Tuner.Ops Tn}.
Variable csrf_Check : Request -> option error.
Variable unmarshalStop : string -> option unit.
Variable unmarshalTune : string -> option Api.TuneParams.
Variable handleSocketWebRTCPeer : Handler (S := Api.World Tn).
Variable handleSocketTunerStatus : Handler (S := Api.World Tn).
Variable redirect : string -> ResponseWriter -> Request -> ResponseWriter.

Local Abbreviation serve :=
  (Api.ServeHTTP csrf_Check unmarshalStop unmarshalTune
     handleSocketWebRTCPeer handleSocketTunerStatus redirect).

(** Away from the sockets, a request leaves the state alone unless it is
    an admitted POST to one of the two RPC routes, where the state is the
    one that one call of the route's handler function leaves. *)
Lemma serve_effect (w : ResponseWriter) (r : Request) (s : Api.World Tn) :
  ~ socketPath r ->
  snd (serve w r s) = s \/
  (Method r = MethodPost /\ csrf_Check r = None /\
   ((Path r = "/api/rpc/stop" /\
     exists r' params, snd (serve w r s) = snd (Api.rpcStop r' params s)) \/
    (Path r = "/api/rpc/tune" /\
     exists r' params, snd (serve w r s) = snd (Api.rpcTune r' params s)))).
Proof.
  intros Hsock. unfold Api.ServeHTTP.
  destruct (String.eqb (Path r) "*"); [left; reflexivity|].
  destruct (String.eqb _ "/api/rpc"); [left; reflexivity|].
  destruct (negb (String.eqb _ (Path r))); [left; reflexivity|].
  unfold Api.routes.
  destruct (String.eqb (Path r) "/api/config/channels").
  { left. destruct (_ || _); reflexivity. }
  destruct (Api.HasPrefix (Path r) "/api/rpc/").
  - unfold Api.rpcRoutes, Csrf.Handler.
    destruct (csrf_Check r) as [e|] eqn:Hc; [left; reflexivity|].
    destruct (limited_effect (Api.rpcMux unmarshalStop unmarshalTune) 1024 w r s)
      as [E|(Hm & b & E)]; [left; exact E|].
    rewrite E. unfold Api.rpcMux. cbn [Path with_Body].
    destruct (String.eqb_spec (Path r) "/api/rpc/stop") as [Hp|Hp].
    + destruct (Handle_effect tt unmarshalStop Api.rpcStop w (with_Body r b) s)
        as [E'|(_ & r' & params & E')]; [left; exact E'|].
      right. repeat split; auto. left. split; [exact Hp|].
      exists r', params. rewrite E'. unfold invoke.
      destruct (Api.rpcStop r' params s) as [[code body] s']. reflexivity.
    + destruct (String.eqb_spec (Path r) "/api/rpc/tune") as [Hp'|Hp'];
        [|left; reflexivity].
      destruct (Handle_effect Api.zeroTuneParams unmarshalTune Api.rpcTune w
                  (with_Body r b) s) as [E'|(_ & r' & params & E')]; [left; exact E'|].
      right. repeat split; auto. right. split; [exact Hp'|].
      exists r', params. rewrite E'. unfold invoke.
      destruct (Api.rpcTune r' params s) as [[code body] s']. reflexivity.
  - destruct (String.eqb_spec (Path r) "/api/socket/webrtc-peer") as [Hp|Hp];
      [exfalso; apply Hsock; left; exact Hp|].
    destruct (String.eqb_spec (Path r) "/api/socket/tuner-status") as [Hp'|Hp'];
      [exfalso; apply Hsock; right; exact Hp'|].
    left. reflexivity.
Qed.

(** X8. Apart from the two socket routes, only an admitted POST to
    /api/rpc/stop or /api/rpc/tune can change the state behind the API:
    every other request (any GET, HEAD or other method, any other path, any
    request the cross-origin gate refuses) leaves the tuner and the record
    of calls on it exactly as they were. *)
Theorem only_rpc_posts_change_state
    (w : ResponseWriter) (r : Request) (s : Api.World Tn) :
  ~ socketPath r ->
  snd (serve w r s) <> s ->
  Method r = MethodPost /\ csrf_Check r = None /\
  (Path r = "/api/rpc/stop" \/ Path r = "/api/rpc/tune").
Proof.
  intros Hsock Hchg.
  destruct (serve_effect w r s Hsock) as [E|(Hm & Hc & [[Hp _]|[Hp _]])];
    [contradiction|auto|auto].
Qed.

(** X9. Apart from the two socket routes, a request makes at most one
    call on the tuner: none, or [Stop] on /api/rpc/stop, or [Tune] with a
    channel name that is not empty on /api/rpc/tune; calls made earlier
    stay on record. *)
Theorem at_most_one_tuner_call
    (w : ResponseWriter) (r : Request) (s : Api.World Tn) :
  ~ socketPath r ->
  let after := Api.calls (snd (serve w r s)) in
  after = Api.calls s \/
  (Path r = "/api/rpc/stop" /\ after = (Api.calls s ++ [Api.CallStop])%list) \/
  (Path r = "/api/rpc/tune" /\
   exists channel, channel <> EmptyString /\
     after = (Api.calls s ++ [Api.CallTune channel])%list).
Proof.
  intros Hsock after. subst after.
  destruct (serve_effect w r s Hsock)
    as [E|(Hm & Hc & [(Hp & r' & params & E)|(Hp & r' & params & E)])]; rewrite E.
  - left. reflexivity.
  - right. left. split; [exact Hp|].
    unfold Api.rpcStop, Api.tuner_Stop.
    destruct (Tuner.Stop (Api.tuner s)) as [[e|] t]; reflexivity.
  - unfold Api.rpcTune, Api.tuner_Tune.
    destruct (String.eqb_spec (Api.ChannelName params) EmptyString) as [Hn|Hn];
      [left; reflexivity|].
    right. right. split; [exact Hp|]. exists (Api.ChannelName params).
    split; [exact Hn|].
    destruct (Tuner.Tune (Api.tuner s) (Api.ChannelName params)) as [[e|] t];
      [destruct (Is e Tuner.ErrChannelNotFound)|]; reflexivity.
Qed.

(** X10. An admitted POST to /api/rpc/stop whose body is empty, or is JSON
    that decodes into the empty struct, calls [Stop] once and answers by
    its result: 204 with no body for nil, and 500 with the JSON object
    holding the message for every error, [tuner.ErrChannelNotFound]
    included. *)
Theorem stop_status_by_tuner_result
    (r : Request) (data : string) (s : Api.World Tn) :
  Method r = MethodPost ->
  Path r = "/api/rpc/stop" ->
  csrf_Check r = None ->
  ReqBody r = Stream data None ->
  Len data <= 1024 ->
  data = EmptyString \/
  (Header_Get (ReqHeader r) "Content-Type" = "application/json" /\
   unmarshalStop data = Some tt) ->
  let served := serve newResponse r s in
  let result := Tuner.Stop (Api.tuner s) in
  snd served = Api.mkWorld (snd result) (Api.calls s ++ [Api.CallStop])%list /\
  fst served =
    match fst result with
    | None => mkResponse ∅ (Some 204) []
    | Some err =>
        mkResponse {[ "Content-Type" := ["application/json"] ]} (Some 500)
          [JsonDoc (JObject [("Error", JString (Error err))])]
    end.
Proof.
  intros Hm Hp Hc Hb Hle Hdec served result. subst served result.
  rewrite (serve_stop csrf_Check unmarshalStop unmarshalTune _ _ _
             newResponse r data s Hm Hp Hc Hb Hle).
  assert (Hv : Checks.verdict tt unmarshalStop (Len data) r data = Checks.Accept tt).
  { unfold Checks.verdict. rewrite Z.ltb_irrefl.
    destruct Hdec as [->|[Hct Hum]]; [reflexivity|].
    destruct (Len data =? 0); [reflexivity|].
    rewrite (badContentType_false r Hct), Hum. reflexivity. }
  rewrite Hv. unfold Checks.reply, invoke, Api.rpcStop, Api.tuner_Stop.
  destruct (Tuner.Stop (Api.tuner s)) as [[e|] t]; split; reflexivity.
Qed.

(** X11. The handler registered for /api/rpc/ enforces the method by
    itself, before it reads the body or looks the path up: an admitted
    request whose method is not POST is answered 405 with [Allow: POST]
    on every path, routed or not, whatever its body, and changes nothing.
    The library's check admits every GET, HEAD and OPTIONS request, so for
    these the answer is 405 without further condition. *)
Theorem rpc_routes_refuse_other_methods (r : Request) (s : Api.World Tn) :
  let denied := (mkResponse {[ "Allow" := ["POST"] ]} (Some 405) [], s) in
  (csrf_Check r = None -> Method r <> MethodPost ->
   Api.rpcRoutes csrf_Check unmarshalStop unmarshalTune newResponse r s = denied) /\
  (forall url_Host : string -> option string,
     Csrf.safeMethod (Method r) = true ->
     Api.rpcRoutes (Csrf.Check url_Host) unmarshalStop unmarshalTune
       newResponse r s = denied).
Proof.
  cbv zeta. split.
  - intros Hc Hm. unfold Api.rpcRoutes, Csrf.Handler. rewrite Hc.
    unfold WithLimitedBodyBuffer. rewrite (respondIfBadMethod_other _ _ Hm).
    reflexivity.
  - intros url_Host Hsafe.
    assert (Hm : Method r <> MethodPost).
    { intros E. rewrite E in Hsafe. vm_compute in Hsafe. discriminate. }
    unfold Api.rpcRoutes, Csrf.Handler, Csrf.Check. rewrite Hsafe.
    unfold WithLimitedBodyBuffer. rewrite (respondIfBadMethod_other _ _ Hm).
    reflexivity.
Qed.

End ApiEffects.

Lemma only_rpc_posts_change_state_witness :
  let r := Samples.post "/api/rpc/tune" Samples.jsonHeaders (Samples.tuneBody "ABC") in
  Method r = MethodPost /\ Samples.csrf_Check r = None /\
  (Path r = "/api/rpc/stop" \/ Path r = "/api/rpc/tune").
Proof.
  apply (only_rpc_posts_change_state Samples.csrf_Check Samples.unmarshalStop
           Samples.unmarshalTune Samples.noSocket Samples.noSocket Samples.redirect newResponse
           (Samples.post "/api/rpc/tune" Samples.jsonHeaders (Samples.tuneBody "ABC"))
           (Samples.tunerWith ["ABC"; "NBC"])).
  - intros [E|E]; vm_compute in E; discriminate.
  - vm_compute. discriminate.
Defined.

Lemma at_most_one_tuner_call_witness :
  let r := Samples.post "/api/rpc/tune" Samples.jsonHeaders (Samples.tuneBody "ABC") in
  let s := Samples.tunerWith ["ABC"; "NBC"] in
  let after := Api.calls (snd (Samples.api newResponse r s)) in
  after = Api.calls s \/
  (Path r = "/api/rpc/stop" /\ after = (Api.calls s ++ [Api.CallStop])%list) \/
  (Path r = "/api/rpc/tune" /\
   exists channel, channel <> EmptyString /\
     after = (Api.calls s ++ [Api.CallTune channel])%list).
Proof.
  apply (at_most_one_tuner_call Samples.csrf_Check Samples.unmarshalStop
           Samples.unmarshalTune Samples.noSocket Samples.noSocket Samples.redirect newResponse
           (Samples.post "/api/rpc/tune" Samples.jsonHeaders (Samples.tuneBody "ABC"))
           (Samples.tunerWith ["ABC"; "NBC"])).
  intros [E|E]; vm_compute in E; discriminate.
Defined.

Lemma stop_status_by_tuner_result_witness :
  let r := Samples.post "/api/rpc/stop" Samples.jsonHeaders "{}" in
  let s := Samples.tunerWith ["ABC"] in
  let served := Samples.api newResponse r s in
  let result := Tuner.Stop (Api.tuner s) in
  snd served = Api.mkWorld (snd result) (Api.calls s ++ [Api.CallStop])%list /\
  fst served =
    match fst result with
    | None => mkResponse ∅ (Some 204) []
    | Some err =>
        mkResponse {[ "Content-Type" := ["application/json"] ]} (Some 500)
          [JsonDoc (JObject [("Error", JString (Error err))])]
    end.
Proof.
  apply (stop_status_by_tuner_result Samples.csrf_Check Samples.unmarshalStop
           Samples.unmarshalTune Samples.noSocket Samples.noSocket Samples.redirect
           (Samples.post "/api/rpc/stop" Samples.jsonHeaders "{}") "{}"
           (Samples.tunerWith ["ABC"])).
  - reflexivity.
  - reflexivity.
  - reflexivity.
  - reflexivity.
  - vm_compute. discriminate.
  - right. split; reflexivity.
Defined.

Lemma rpc_routes_refuse_other_methods_witness :
  Api.rpcRoutes Samples.csrf_Check Samples.unmarshalStop Samples.unmarshalTune
    newResponse (Samples.get "/api/rpc/nowhere" ∅) (Samples.tunerWith ["ABC"]) =
  (mkResponse {[ "Allow" := ["POST"] ]} (Some 405) [], Samples.tunerWith ["ABC"]).
Proof.
  apply (proj1 (rpc_routes_refuse_other_methods Samples.csrf_Check
           Samples.unmarshalStop Samples.unmarshalTune
           (Samples.get "/api/rpc/nowhere" ∅) (Samples.tunerWith ["ABC"]))).
  - reflexivity.
  - discriminate.
Defined.

(** * Further properties of [main] *)

(** X12. The exit code of the process, from [flag.Parse()] on.  It is
    2 exactly when the command line has a flag that is not defined or a
    value that does not parse; it is 0 exactly when help was asked for, or
    the command line parsed, the channels were loaded and a signal ended
    the wait; in every other run (channels not loaded, or the server
    failed) it is 1.  The server is shut down only in a run that parsed
    its command line and exits with 0, and then with the 5-second limit;
    a run that stops in [flag.Parse()] does nothing but print the usage. *)
Theorem exit_code_by_run (parse : Main.Parse) (channels : option error)
    (embedded : bool) (wake : Main.Wakeup) :
  let run := Main.process parse channels embedded wake in
  (snd run = 2 <-> parse = Main.BadFlag) /\
  (snd run = 0 <->
   parse = Main.HelpFlag \/
   ((exists flags, parse = Main.Parsed flags) /\ channels = None /\
    exists sig, wake = Main.Signalled sig)) /\
  (snd run <> 0 -> snd run <> 2 -> snd run = 1) /\
  (forall t, In (Main.Shutdown t) (fst run) ->
     (exists flags, parse = Main.Parsed flags) /\ snd run = 0 /\ t = 5000000000) /\
  ((forall flags, parse <> Main.Parsed flags) -> fst run = [Main.Usage]).
Proof.
  cbv zeta. unfold Main.process.
  destruct parse as [| |flags].
  - cbn [fst snd]. split; [|split; [|split; [|split]]].
    + split; reflexivity.
    + split; [discriminate|].
      intros [E|((flags & E) & _)]; discriminate.
    + intros _ Hne. contradiction Hne. reflexivity.
    + intros t [E|[]]. discriminate.
    + intros _. reflexivity.
  - cbn [fst snd]. split; [|split; [|split; [|split]]].
    + split; discriminate.
    + split; [|reflexivity]. intros _. left. reflexivity.
    + intros Hne. contradiction Hne. reflexivity.
    + intros t [E|[]]. discriminate.
    + intros _. reflexivity.
  - unfold Main.main.
    destruct channels as [e|]; [|destruct wake as [e|sig]]; cbn [fst snd].
    + split; [|split; [|split; [|split]]].
      * split; discriminate.
      * split; [discriminate|].
        intros [E|(_ & E & _)]; discriminate.
      * intros _ _. reflexivity.
      * intros t [E|[]]. discriminate.
      * intros Hn. exfalso. apply (Hn flags). reflexivity.
    + split; [|split; [|split; [|split]]].
      * split; discriminate.
      * split; [discriminate|].
        intros [E|(_ & _ & sig & E)]; discriminate.
      * intros _ _. reflexivity.
      * intros t Hin. exfalso. rewrite !in_app_iff in Hin.
        destruct (negb _), embedded; cbn [In] in Hin; intuition discriminate.
      * intros Hn. exfalso. apply (Hn flags). reflexivity.
    + split; [|split; [|split; [|split]]].
      * split; discriminate.
      * split; [|reflexivity].
        intros _. right. split; [eauto|]. split; [reflexivity|eauto].
      * intros Hne. contradiction Hne. reflexivity.
      * intros t Hin. split; [eauto|]. split; [reflexivity|].
        rewrite !in_app_iff in Hin.
        assert (Hs : Main.Shutdown (5 * Main.time_Second) = Main.Shutdown t).
        { destruct (negb _), embedded; cbn [In] in Hin; intuition discriminate. }
        injection Hs as <-. reflexivity.
      * intros Hn. exfalso. apply (Hn flags). reflexivity.
Qed.

(** X13. What [main] starts depends on the channels alone: the tuner is
    created, /api/ is registered and the server is started exactly when
    the channels were loaded; and the file server for / is registered
    exactly when, besides, the assets flag is set or a client build is
    embedded. *)
Theorem startup_by_channels_and_assets (flags : Main.Flags)
    (channels : option error) (embedded : bool) (wake : Main.Wakeup) :
  let effects := fst (Main.main flags channels embedded wake) in
  (In (Main.NewTuner (Main.flagVideoPipeline flags)) effects <-> channels = None) /\
  (In (Main.HttpHandle "/api/") effects <-> channels = None) /\
  (In (Main.ListenAndServe (Main.flagAddr flags)) effects <-> channels = None) /\
  (In (Main.HttpHandle "/") effects <->
   channels = None /\ (Main.flagAssets flags <> EmptyString \/ embedded = true)).
Proof.
  cbv zeta. unfold Main.main.
  destruct channels as [e|].
  - cbn [fst In].
    split; [|split; [|split]];
      (split; [intros [Hx|[]]; discriminate
              |intros Hx; first [discriminate Hx|destruct Hx as [Hx' _]; discriminate Hx']]).
  - set (assets :=
           if negb (String.eqb (Main.flagAssets flags) EmptyString)
           then [Main.HttpHandle "/"]
           else if embedded then [Main.HttpHandle "/"] else []).
    assert (Hassets : In (Main.HttpHandle "/") assets <->
              (Main.flagAssets flags <> EmptyString \/ embedded = true)).
    { subst assets.
      destruct (String.eqb_spec (Main.flagAssets flags) EmptyString) as [E|E];
        cbn [negb In].
      - destruct embedded; cbn [In]; intuition (try discriminate; try congruence).
      - intuition. }
    assert (Hrun : forall tail : list Main.Effect,
      ~ In (Main.HttpHandle "/") tail ->
      let effects :=
        (([Main.NewTuner (Main.flagVideoPipeline flags); Main.HttpHandle "/api/"] ++
          assets ++
          [Main.LogInfo "Starting Hypcast server";
           Main.ListenAndServe (Main.flagAddr flags);
           Main.Notify [Main.Interrupt; Main.SIGTERM]]) ++ tail)%list in
      (In (Main.NewTuner (Main.flagVideoPipeline flags)) effects <-> @None error = None) /\
      (In (Main.HttpHandle "/api/") effects <-> @None error = None) /\
      (In (Main.ListenAndServe (Main.flagAddr flags)) effects <-> @None error = None) /\
      (In (Main.HttpHandle "/") effects <->
       @None error = None /\
       (Main.flagAssets flags <> EmptyString \/ embedded = true))).
    { intros tail Htail effects. subst effects.
      rewrite !in_app_iff. cbn [In]. rewrite <- Hassets.
      repeat split; auto; try tauto.
      match goal with Hx : _ \/ _ |- _ =>
        destruct Hx as [[[Hx|[Hx|[]]]|[Hx|[Hx|[Hx|[Hx|[]]]]]]|Hx];
          try discriminate; try exact Hx; contradiction
      end. }
    destruct wake as [e|sig]; cbn [fst]; apply Hrun; cbn [In];
      intuition discriminate.
Qed.

(** * Further properties of the single-stage revisions *)

Section RevisionEdges.
Context {T S : Type}.
Variable zero : T.
Variable unmarshal : string -> option T.
Variable h : HandlerFunc (T:=T) (S:=S).

(** X14. In the [io.LimitReader] revision a negative limit, and the
    largest [int64] (whose successor wraps around), leave the limited
    reader no room: the body of a POST is not read at all and the handler
    function is called with the zero value of its parameters, whatever the
    body and its Content-Type are. *)
Theorem limit_reader_without_room (L : Z) (w : ResponseWriter) (r : Request) (s : S) :
  - 2^63 <= L <= MaxInt64 ->
  L < 0 \/ L = MaxInt64 ->
  Method r = MethodPost ->
  RpcLimitReader.ServeHTTP zero unmarshal h L w r s = invoke h w r zero s.
Proof.
  intros Hr Hl Hm. unfold MaxInt64 in *.
  assert (Hroom : (int64_add L 1 <=? 0) = true).
  { destruct Hl as [Hl| ->]; [rewrite int64_add_exact by lia; lia|reflexivity]. }
  unfold RpcLimitReader.ServeHTTP, RpcLimitReader.readRPCParams.
  rewrite Hm. change (negb (MethodPost =? MethodPost)%string) with false. cbv iota.
  unfold LimitReader. destruct (ReadFrom (ReqBody r)) as [data err].
  rewrite Hroom. cbn [ReadFrom]. change (Len EmptyString =? 0) with true. cbv iota.
  unfold invoke. destruct (h r zero s) as [[code body] s'].
  destruct body; reflexivity.
Qed.

(** X15. In the [io.LimitReader] revision a failed read never reaches the
    handler function, under a limit [L] from 0 to below the largest
    [int64].  When the error comes on a read of its own, after the bytes
    that had arrived, the POST is answered 413 when more than [L] bytes had
    arrived and 500 with "unable to read RPC body" otherwise, even when
    some bytes, or none, had arrived.  When the error comes together with
    the last bytes, the limited reader passes it on if these are within its
    [L + 1] bytes: the answer is 413 only when more than [L + 1] bytes had
    arrived, and 500 otherwise, also for a body of [L + 1] bytes, which is
    over the limit. *)
Theorem limit_reader_read_failure (L : Z) (w : ResponseWriter) (r : Request)
    (data : string) (e : error) (s : S) (log : list T) :
  0 <= L < MaxInt64 ->
  Method r = MethodPost ->
  let served := RpcLimitReader.ServeHTTP zero unmarshal (spy h) L w r (s, log) in
  (ReqBody r = Stream data (Some e) ->
   served =
   (respondError w (if L <? Len data then errBodyTooLarge else errReadingBody),
    (s, log))) /\
  (ReqBody r = Abrupt data e ->
   served =
   (respondError w (if L + 1 <? Len data then errBodyTooLarge else errReadingBody),
    (s, log))).
Proof.
  intros Hl Hm served. subst served. unfold MaxInt64 in Hl.
  unfold RpcLimitReader.ServeHTTP, RpcLimitReader.readRPCParams.
  rewrite Hm. change (negb (MethodPost =? MethodPost)%string) with false. cbv iota.
  rewrite int64_add_exact by lia. unfold LimitReader.
  assert ((L + 1 <=? 0) = false) as -> by lia.
  split; intros Hb; rewrite Hb; cbn [ReadFrom].
  - destruct (Z.leb_spec (L + 1) (Len data)) as [Hbig|Hsmall]; cbn [ReadFrom].
    + rewrite Len_substring_0 by lia.
      assert ((L + 1 =? 0) = false) as -> by lia.
      assert ((L <? L + 1) = true) as -> by lia.
      assert ((L <? Len data) = true) as -> by lia. reflexivity.
    + assert ((L <? Len data) = false) as -> by lia. reflexivity.
  - destruct (Z.ltb_spec (L + 1) (Len data)) as [Hbig|Hsmall]; cbn [ReadFrom].
    + rewrite Len_substring_0 by lia.
      assert ((L + 1 =? 0) = false) as -> by lia.
      assert ((L <? L + 1) = true) as -> by lia. reflexivity.
    + reflexivity.
Qed.

(** X16. In the [http.MaxBytesReader] revision an error that ends the
    read before any byte has arrived is sent to the client as it is: under
    a limit of 0 or less, a POST with a body that is not empty is answered
    500 with the reader's own "http: request body too large", not 413; and
    a POST whose read fails at once is answered by [respondError] on that
    error, which writes the message of the error under the code that
    [errorHTTPCode] gives it whenever this is a code under which a
    response has a body (500 for every error that is not one of the
    package's own). *)
Theorem max_bytes_revision_without_bytes (L : Z) (r : Request) (data : string)
    (err : option error) (s : S) (log : list T) :
  Method r = MethodPost ->
  ReqBody r = Stream data err ->
  let served :=
    RpcMaxBytes.ServeHTTP zero unmarshal (spy h) L newResponse r (s, log) in
  (L <= 0 -> data <> EmptyString ->
   served =
   (mkResponse {[ "Content-Type" := ["application/json"] ]} (Some 500)
      [JsonDoc (JObject [("Error", JString "http: request body too large")])],
    (s, log))) /\
  (forall e, data = EmptyString -> err = Some e ->
     served = (respondError newResponse e, (s, log)) /\
     (200 <= errorHTTPCode e <= 999 ->
      errorHTTPCode e <> 204 -> errorHTTPCode e <> 304 ->
      served =
      (mkResponse {[ "Content-Type" := ["application/json"] ]}
         (Some (errorHTTPCode e))
         [JsonDoc (JObject [("Error", JString (Error e))])],
       (s, log))) /\
     (As_httpError e = None ->
      served =
      (mkResponse {[ "Content-Type" := ["application/json"] ]} (Some 500)
         [JsonDoc (JObject [("Error", JString (Error e))])],
       (s, log)))).
Proof.
  intros Hm Hb served. subst served. unfold RpcMaxBytes.ServeHTTP.
  rewrite (respondIfBadMethod_post _ _ Hm), Hb. split.
  - intros Hl Hne.
    assert (Hpos : 0 < Len data).
    { pose proof (Len_nonneg data). destruct (Z.eq_dec (Len data) 0) as [E|E]; [|lia].
      apply Len_zero in E. contradiction. }
    rewrite MaxBytesReader_beyond by lia.
    replace (Z.max L 0) with 0 by lia.
    rewrite Len_substring_0 by lia. reflexivity.
  - intros e -> ->.
    rewrite MaxBytesReader_within by (change (Len EmptyString) with 0; lia).
    cbn [ReadFrom]. change (0 <? Len EmptyString) with false. cbv iota beta.
    split; [reflexivity|]. split.
    + intros Hr H204 H304. unfold respondError.
      rewrite (respond_error_final newResponse _ e eq_refl Hr H204 H304).
      reflexivity.
    + intros Hplain. unfold respondError.
      assert (Hcode : errorHTTPCode e = 500).
      { unfold errorHTTPCode. rewrite Hplain. reflexivity. }
      rewrite Hcode.
      rewrite (respond_error_final newResponse 500 e eq_refl) by lia.
      reflexivity.
Qed.

End RevisionEdges.

Lemma limit_reader_without_room_witness :
  RpcLimitReader.ServeHTTP Api.zeroTuneParams Samples.unmarshalTune Samples.accept
    (-1) newResponse (Samples.post "/" ∅ "{{{]]]") tt =
  invoke Samples.accept newResponse (Samples.post "/" ∅ "{{{]]]")
    Api.zeroTuneParams tt.
Proof.
  apply (limit_reader_without_room Api.zeroTuneParams Samples.unmarshalTune
           Samples.accept (-1) newResponse (Samples.post "/" ∅ "{{{]]]") tt).
  - unfold MaxInt64. lia.
  - left. lia.
  - reflexivity.
Defined.

(** X15 at a body of three bytes under the limit 2, whose read error comes
    with the last byte: 500, not 413. *)
Lemma limit_reader_read_failure_witness :
  RpcLimitReader.ServeHTTP Api.zeroTuneParams Samples.unmarshalTune
    (spy Samples.accept) 2 newResponse
    (mkRequest MethodPost "/" "example.com" Samples.jsonHeaders
       (Abrupt "{ }" (ErrLeaf "io.ErrUnexpectedEOF" "unexpected EOF")))
    (tt, []) =
  (respondError newResponse (if 2 + 1 <? Len "{ }" then errBodyTooLarge else errReadingBody),
   (tt, [])).
Proof.
  refine (proj2 (limit_reader_read_failure Api.zeroTuneParams Samples.unmarshalTune
            Samples.accept 2 newResponse
            (mkRequest MethodPost "/" "example.com" Samples.jsonHeaders
               (Abrupt "{ }" (ErrLeaf "io.ErrUnexpectedEOF" "unexpected EOF")))
            "{ }" (ErrLeaf "io.ErrUnexpectedEOF" "unexpected EOF") tt []
            _ eq_refl) eq_refl).
  unfold MaxInt64. lia.
Defined.

Lemma max_bytes_revision_without_bytes_witness :
  RpcMaxBytes.ServeHTTP Api.zeroTuneParams Samples.unmarshalTune
    (spy Samples.accept) 0 newResponse
    (Samples.post "/" Samples.jsonHeaders "{}") (tt, []) =
  (mkResponse {[ "Content-Type" := ["application/json"] ]} (Some 500)
     [JsonDoc (JObject [("Error", JString "http: request body too large")])],
   (tt, [])).
Proof.
  apply (proj1 (max_bytes_revision_without_bytes Api.zeroTuneParams
           Samples.unmarshalTune Samples.accept 0
           (Samples.post "/" Samples.jsonHeaders "{}") "{}" None tt []
           eq_refl eq_refl)).
  - lia.
  - discriminate.
Defined.
